(** * A shallow embedding of tiktok_auto_forward.py

    The script drives a browser through Selenium.  Everything the browser,
    the file system or the clock answers is an input of the model (an
    oracle); the control flow of the script (loops, early returns, the
    try/except/finally blocks and which exception classes they catch) is
    written out as the source has it. *)

From Stdlib Require Import List String Ascii Bool Arith Lia ZArith.
Import ListNotations.

(** ** Python exceptions and results *)

(** The only distinction the handlers of the script make between
    exceptions: [except Exception] catches the subclasses of
    [Exception] (Selenium's errors, [OSError], ...), a bare [except:]
    also catches the other subclasses of [BaseException]
    ([KeyboardInterrupt], [SystemExit]). *)
Inductive exn : Type :=
| ExcException
| ExcBaseOnly.

Definition is_Exception (e : exn) : bool :=
  match e with ExcException => true | ExcBaseOnly => false end.

Definition catch_all (_ : exn) : bool := true.

(** The outcome of a Python call: a value or a raised exception. *)
Inductive result (A : Type) : Type :=
| Ok (a : A)
| Raise (e : exn).
Arguments Ok {A} a.
Arguments Raise {A} e.

(** ** The batch runner: state, log and a state/exception monad *)

Inductive level : Type := INFO | WARNING | ERROR.

(** The messages passed to [log_activity]; f-strings keep their
    interpolated values. *)
Inductive message : Type :=
| MsgBar                                   (* "=" * 70 *)
| MsgRunStarted                            (* DAILY RUN STARTED - ... *)
| MsgText (s : string)
| MsgReady (n : nat)                       (* Bot ready. Processing {len(users)} users... *)
| MsgUserSuccess (u : string)              (* @{username} - SUCCESS *)
| MsgUserRetry (u : string) (k max : nat)  (* @{username} - Retry {attempt+1}/{MAX_RETRIES} *)
| MsgUserFailed (u : string)               (* @{username} - FAILED *)
| MsgResults (s total : nat)               (* Results: {success_count}/{len(users)} successful *)
| MsgCounts (s f : nat)                    (* Success: {success_count}, Failed: {fail_count} *)
| MsgCritical                              (* Critical error: {e} *)
| MsgTraceback
| MsgBrowserClosed.

(** Observable actions of a run, in order. *)
Inductive event : Type :=
| EvLog (lvl : level) (m : message)
| EvLoadCookies
| EvLoadUsers
| EvSetupDriver
| EvLoadCookiesToDriver
| EvGetHome
| EvSend (u : string)       (* one call of send_streak_to_user *)
| EvScreenshot (u : string) (* driver.save_screenshot(f"debug_error_{username}.png") *)
| EvSleep (secs : nat)      (* time.sleep with a fixed duration *)
| EvUserDelay               (* time.sleep(random.uniform(8, 15)) between users *)
| EvQuit.

(** [st_calls] counts the calls of the workflow body so far (it indexes
    the oracle answering them); [st_driver] is the local [driver] of
    [run_streak_bot] ([None] or a session). *)
Record St : Type := mkSt {
  st_calls : nat;
  st_driver : bool;
  st_trace : list event
}.

Definition M (A : Type) : Type := St -> St * result A.

Definition ret {A} (a : A) : M A := fun s => (s, Ok a).

Definition bind {A B} (m : M A) (k : A -> M B) : M B :=
  fun s => match m s with
           | (s', Ok a) => k a s'
           | (s', Raise e) => (s', Raise e)
           end.

Notation "x <- m ;; k" := (bind m (fun x => k))
  (at level 61, m at next level, right associativity).
Notation "m ;;; k" := (bind m (fun _ => k))
  (at level 61, right associativity).

(** A Python call whose outcome is given. *)
Definition lift {A} (r : result A) : M A := fun s => (s, r).

Definition emit (ev : event) : M unit :=
  fun s => (mkSt (st_calls s) (st_driver s) (st_trace s ++ [ev]), Ok tt).

(** [log_activity(message, level)]: the line appended to [LOG_FILE] and
    the logger call.  The append is taken to succeed: the run model does
    not cover a failing write of the log file (an [OSError]). *)
Definition log_activity (m : message) (lvl : level) : M unit := emit (EvLog lvl m).

Definition set_driver : M unit :=
  fun s => (mkSt (st_calls s) true (st_trace s), Ok tt).

Definition get_driver : M bool := fun s => (s, Ok (st_driver s)).

(** [try: m except <catches>: h]. *)
Definition try_except {A} (catches : exn -> bool) (m : M A) (h : exn -> M A) : M A :=
  fun s => match m s with
           | (s', Raise e) => if catches e then h e s' else (s', Raise e)
           | r => r
           end.

(** [try: m finally: f]. *)
Definition try_finally {A} (m : M A) (f : M unit) : M A :=
  fun s => match m s with
           | (s', r) => match f s' with
                        | (s'', Ok _) => (s'', r)
                        | (s'', Raise e) => (s'', Raise e)
                        end
           end.

(** ** Python string methods used by the script *)

(** Text read with [encoding='utf-8'] is held as its UTF-8 encoding: a
    Python [str] is the string of the UTF-8 bytes of its code points. *)

(** The code points of a UTF-8 string (a well-formed one: a string the
    [utf-8] codec decoded). *)
Fixpoint utf8_decode (s : string) : list N :=
  match s with
  | EmptyString => []
  | String a rest =>
      let b := N_of_ascii a in
      if (b <? 128)%N then b :: utf8_decode rest
      else if (b <? 224)%N then
        match rest with
        | String c1 r => ((b mod 32) * 64 + N_of_ascii c1 mod 64)%N :: utf8_decode r
        | EmptyString => [b]
        end
      else if (b <? 240)%N then
        match rest with
        | String c1 (String c2 r) =>
            (((b mod 16) * 64 + N_of_ascii c1 mod 64) * 64 + N_of_ascii c2 mod 64)%N
              :: utf8_decode r
        | _ => [b]
        end
      else
        match rest with
        | String c1 (String c2 (String c3 r)) =>
            ((((b mod 8) * 64 + N_of_ascii c1 mod 64) * 64 + N_of_ascii c2 mod 64) * 64
               + N_of_ascii c3 mod 64)%N :: utf8_decode r
        | _ => [b]
        end
  end.

(** The UTF-8 encoding of one code point. *)
Definition utf8_encode_cp (n : N) : string :=
  let byte (k : N) := ascii_of_N k in
  if (n <? 128)%N then String (byte n) EmptyString
  else if (n <? 2048)%N then
    String (byte (192 + n / 64)%N) (String (byte (128 + n mod 64)%N) EmptyString)
  else if (n <? 65536)%N then
    String (byte (224 + n / 4096)%N) (String (byte (128 + (n / 64) mod 64)%N)
      (String (byte (128 + n mod 64)%N) EmptyString))
  else
    String (byte (240 + n / 262144)%N) (String (byte (128 + (n / 4096) mod 64)%N)
      (String (byte (128 + (n / 64) mod 64)%N) (String (byte (128 + n mod 64)%N) EmptyString))).

Fixpoint utf8_encode (l : list N) : string :=
  match l with
  | [] => EmptyString
  | n :: l' => utf8_encode_cp n ++ utf8_encode l'
  end.

(** [str.isspace] on one code point (CPython's [Py_UNICODE_ISSPACE]). *)
Definition py_isspace (n : N) : bool :=
  ((9 <=? n) && (n <=? 13))%N || ((28 <=? n) && (n <=? 32))%N ||
  (n =? 133)%N || (n =? 160)%N || (n =? 5760)%N || ((8192 <=? n) && (n <=? 8202))%N ||
  (n =? 8232)%N || (n =? 8233)%N || (n =? 8239)%N || (n =? 8287)%N || (n =? 12288)%N.

(** Drops the leading code points satisfying [p]. *)
Fixpoint cp_lstrip (p : N -> bool) (l : list N) : list N :=
  match l with
  | [] => []
  | n :: l' => if p n then cp_lstrip p l' else l
  end.

Fixpoint lstrip_by (p : ascii -> bool) (s : string) : string :=
  match s with
  | EmptyString => EmptyString
  | String c s' => if p c then lstrip_by p s' else s
  end.

(** [s.strip()]: leading and trailing whitespace code points removed. *)
Definition py_strip (s : string) : string :=
  utf8_encode (rev (cp_lstrip py_isspace (rev (cp_lstrip py_isspace (utf8_decode s))))).

(** [s.lstrip('@')] *)
Definition py_lstrip_at (s : string) : string :=
  lstrip_by (fun c => Ascii.eqb c "@"%char) s.

(** [s.startswith(prefix)] *)
Definition py_startswith (pre s : string) : bool := String.prefix pre s.

(** [bool(s)] for a string. *)
Definition py_truthy (s : string) : bool := negb (String.eqb s EmptyString).

(** ** load_users *)

(** The list comprehension of [load_users] over the lines the file
    iteration yields (each with its line ending):
    [[line.strip().lstrip('@') for line in f
       if line.strip() and not line.startswith('#')]]. *)
Fixpoint users_of_lines (lines : list string) : list string :=
  match lines with
  | [] => []
  | line :: rest =>
      if py_truthy (py_strip line) && negb (py_startswith "#" line)
      then py_lstrip_at (py_strip line) :: users_of_lines rest
      else users_of_lines rest
  end.

(** [load_users()]: opening [USERS_FILE] may raise ([FileNotFoundError]),
    which is logged and re-raised. *)
Definition load_users (file : result (list string)) : result (list string) :=
  match file with
  | Ok lines => Ok (users_of_lines lines)
  | Raise e => Raise e
  end.

(** ** send_streak_to_user: the try/except around the workflow *)

(** The body of the [try] block (navigation, captcha guard, locating and
    clicking the button, typing) answers with [return True],
    [return False] or an exception; its answer on the [n]-th call of the
    run is [body n]. *)
Definition workflow_body (body : nat -> result bool) : M bool :=
  fun s => (mkSt (S (st_calls s)) (st_driver s) (st_trace s), body (st_calls s)).

Definition send_streak_to_user (body : nat -> result bool) (username : string) : M bool :=
  try_except is_Exception
    (emit (EvSend username) ;;; workflow_body body)
    (fun _ =>
       try_except catch_all (emit (EvScreenshot (py_lstrip_at username))) (fun _ => ret tt) ;;;
       ret false).

(** ** run_streak_bot *)

Definition MAX_RETRIES : nat := 3.

(** [for attempt in range(MAX_RETRIES): ...] for one user, threading
    [success_count] and [fail_count]; a success [break]s. *)
Fixpoint attempt_loop (body : nat -> result bool) (username : string)
    (attempts : list nat) (sc fc : nat) : M (nat * nat) :=
  match attempts with
  | [] => ret (sc, fc)
  | attempt :: rest =>
      ok <- send_streak_to_user body username ;;
      if ok then
        log_activity (MsgUserSuccess username) INFO ;;;
        ret (S sc, fc)
      else if attempt <? MAX_RETRIES - 1 then
        log_activity (MsgUserRetry username (attempt + 1) MAX_RETRIES) WARNING ;;;
        emit (EvSleep 5) ;;;
        attempt_loop body username rest sc fc
      else
        log_activity (MsgUserFailed username) ERROR ;;;
        attempt_loop body username rest sc (S fc)
  end.

(** [users[-1]] on the (non-empty) list. *)
Definition py_last (users : list string) : string := last users EmptyString.

(** [for username in users: ...]; [users] is the whole list, [todo] the
    part still to iterate. *)
Fixpoint user_loop (body : nat -> result bool) (users todo : list string)
    (sc fc : nat) : M (nat * nat) :=
  match todo with
  | [] => ret (sc, fc)
  | username :: rest =>
      p <- attempt_loop body username (seq 0 MAX_RETRIES) sc fc ;;
      (if negb (String.eqb username (py_last users)) then emit EvUserDelay else ret tt) ;;;
      user_loop body users rest (fst p) (snd p)
  end.

(** What the environment answers during one run. *)
Record run_env : Type := mkRunEnv {
  env_cookies : result unit;               (* load_cookies() *)
  env_users_file : result (list string);   (* the lines of USERS_FILE *)
  env_setup : result unit;                 (* setup_driver() *)
  env_session : result unit;               (* load_cookies_to_driver, driver.get *)
  env_body : nat -> result bool            (* the workflow body, per call *)
}.

Definition run_streak_bot (env : run_env) : M unit :=
  log_activity MsgBar INFO ;;;
  log_activity MsgRunStarted INFO ;;;
  log_activity MsgBar INFO ;;;
  try_finally
    (try_except is_Exception
       (emit EvLoadCookies ;;;
        lift (env_cookies env) ;;;
        emit EvLoadUsers ;;;
        users <- lift (load_users (env_users_file env)) ;;
        if negb (match users with [] => false | _ => true end) then
          log_activity (MsgText "No users in list.txt") ERROR
        else
          emit EvSetupDriver ;;;
          lift (env_setup env) ;;;
          set_driver ;;;
          emit EvLoadCookiesToDriver ;;;
          emit EvGetHome ;;;
          lift (env_session env) ;;;
          emit (EvSleep 3) ;;;
          log_activity (MsgReady (List.length users)) INFO ;;;
          p <- user_loop (env_body env) users users 0 0 ;;
          log_activity MsgBar INFO ;;;
          log_activity (MsgText "DAILY RUN COMPLETED") INFO ;;;
          log_activity (MsgResults (fst p) (List.length users)) INFO ;;;
          log_activity (MsgCounts (fst p) (snd p)) INFO ;;;
          log_activity MsgBar INFO)
       (fun _ =>
          log_activity MsgCritical ERROR ;;;
          log_activity MsgTraceback ERROR))
    (d <- get_driver ;;
     if d then
       (* [driver.quit()] is taken to return; the bare [except: pass] also
          covers a failing quit, which the model does not produce *)
       try_except catch_all (emit EvQuit ;;; log_activity MsgBrowserClosed INFO)
         (fun _ => ret tt)
     else ret tt).

Definition st0 : St := mkSt 0 false [].

(** ** Page elements and the element locator *)

(** A WebElement: what [is_displayed()] and [click()] answer on it. *)
Record elem : Type := mkElem {
  el_id : nat;
  el_displayed : result bool;
  el_click : result unit
}.

Inductive locator : Type :=
| XPath (x : string)
| CSS (c : string).

Definition xpath_selectors : list string := [
  "//button[@data-e2e='message-button']";
  "//button[contains(@class, 'TUXButton') and @data-e2e='message-button']";
  "//button[contains(@class, 'TUXButton--secondary') and @data-e2e='message-button']";
  "//div[@class='TUXButton-label' and text()='Message']/ancestor::button";
  "//button[@data-e2e='user-page-message-button']";
  "//button[.//div[text()='Message']]";
  "//button[contains(text(), 'Message')]"
]%string.

Definition css_selectors : list string := [
  "button[data-e2e='message-button']";
  "button.TUXButton[data-e2e='message-button']"
]%string.

(** The page, as [wait.until(EC.presence_of_element_located(loc))]
    answers it: the first element matching [loc], or the
    [TimeoutException] raised after [WAIT_TIMEOUT]. *)
Definition page_state : Type := locator -> result elem.

(** One [for selector in ...: try: ... except: continue] loop of
    [find_message_button]. *)
Fixpoint first_displayed (page : page_state) (sels : list locator) : option elem :=
  match sels with
  | [] => None
  | sel :: rest =>
      match page sel with
      | Ok button =>
          match el_displayed button with
          | Ok true => Some button
          | Ok false => first_displayed page rest
          | Raise _ => first_displayed page rest
          end
      | Raise _ => first_displayed page rest
      end
  end.

Definition find_message_button (page : page_state) : option elem :=
  match first_displayed page (map XPath xpath_selectors) with
  | Some button => Some button
  | None => first_displayed page (map CSS css_selectors)
  end.

(** All locator expressions in the order the function tries them. *)
Definition message_button_locators : list locator :=
  map XPath xpath_selectors ++ map CSS css_selectors.

(** ** click_message_button *)

(** What the driver answers to the calls of the three methods other
    than the direct [button.click()]. *)
Record click_env : Type := mkClickEnv {
  ce_scroll : result unit;             (* execute_script(scrollIntoView) *)
  ce_click_after_scroll : result unit; (* button.click() after scrolling *)
  ce_js_click : result unit;           (* execute_script("arguments[0].click();") *)
  ce_action_chain : result unit        (* ActionChains(...).click().perform() *)
}.

(** Evaluating a tuple [(a, b)]: [b] runs only if [a] returned. *)
Definition then_res (a b : result unit) : result unit :=
  match a with Ok _ => b | Raise e => Raise e end.

(** The list [methods]: each name with what its lambda does. *)
Definition click_methods (button : elem) (env : click_env) : list (string * result unit) := [
  ("Normal click", el_click button);
  ("Scroll + click", then_res (ce_scroll env) (ce_click_after_scroll env));
  ("JavaScript click", ce_js_click env);
  ("ActionChains", ce_action_chain env)
]%string.

(** [for method_name, method_func in methods: try: method_func(); ...;
    return True except Exception: continue]; also returns the names of
    the methods run. *)
Fixpoint try_methods (ms : list (string * result unit)) : list string * result bool :=
  match ms with
  | [] => ([], Ok false)
  | (name, r) :: rest =>
      match r with
      | Ok _ => ([name], Ok true)
      | Raise e =>
          if is_Exception e then
            let '(tried, res) := try_methods rest in (name :: tried, res)
          else ([name], Raise e)
      end
  end.

Definition click_message_button (button : option elem) (env : click_env)
    : list string * result bool :=
  match button with
  | None => ([], Ok false)
  | Some b => try_methods (click_methods b env)
  end.

(** ** check_and_close_captcha *)

(** [str.lower] (the ASCII part of it). *)
Definition ascii_lower (c : ascii) : ascii :=
  let n := nat_of_ascii c in
  if (65 <=? n) && (n <=? 90) then ascii_of_nat (n + 32) else c.

Fixpoint py_lower (s : string) : string :=
  match s with
  | EmptyString => EmptyString
  | String c s' => String (ascii_lower c) (py_lower s')
  end.

(** [needle in hay] for strings. *)
Fixpoint py_contains (needle hay : string) : bool :=
  String.prefix needle hay ||
  match hay with
  | EmptyString => false
  | String _ hay' => py_contains needle hay'
  end.

Definition captcha_indicators : list string :=
  ["Drag the slider"; "Verify you are human"; "puzzle"; "verification"]%string.

Definition close_selectors : list string := [
  "//button[contains(@aria-label, 'Close')]";
  "//button[contains(@class, 'close')]";
  "//*[name()='svg' and contains(@class, 'close')]/parent::button";
  "//button[text()='×']"
]%string.

(** What the page answers to the calls of the guard. *)
Record captcha_page : Type := mkCaptchaPage {
  cp_body_text : result string;     (* driver.find_element(By.TAG_NAME, "body").text *)
  cp_find : string -> result elem;  (* driver.find_element(By.XPATH, selector) *)
  cp_escape : result unit           (* ActionChains(driver).send_keys(Keys.ESCAPE).perform() *)
}.

(** [any(indicator.lower() in page_text for indicator in captcha_indicators)] *)
Definition captcha_found (page_text : string) : bool :=
  existsb (fun indicator => py_contains (py_lower indicator) page_text) captcha_indicators.

(** [for selector in close_selectors: try: ... return True except: continue] *)
Fixpoint try_close (pg : captcha_page) (sels : list string) : bool :=
  match sels with
  | [] => false
  | selector :: rest =>
      match cp_find pg selector with
      | Ok close_btn =>
          match el_displayed close_btn with
          | Ok true =>
              match el_click close_btn with
              | Ok _ => true
              | Raise _ => try_close pg rest
              end
          | _ => try_close pg rest
          end
      | Raise _ => try_close pg rest
      end
  end.

Definition check_and_close_captcha (pg : captcha_page) : bool :=
  match cp_body_text pg with
  | Raise _ => false
  | Ok body =>
      if captcha_found (py_lower body) then
        if try_close pg close_selectors then true
        else match cp_escape pg with
             | Ok _ => true
             | Raise _ => false
             end
      else false
  end.

(** ** The daily scheduler's next-run computation *)

Open Scope Z_scope.

(** [datetime.time]: compared field by field. *)
Record py_time : Type := mkTime {
  hour : Z;
  minute : Z;
  second : Z;
  microsecond : Z
}.

Definition time_valid (t : py_time) : Prop :=
  0 <= hour t < 24 /\ 0 <= minute t < 60 /\ 0 <= second t < 60 /\
  0 <= microsecond t < 1000000.

Definition time_lt (a b : py_time) : bool :=
  (hour a <? hour b) ||
  ((hour a =? hour b) &&
   ((minute a <? minute b) ||
    ((minute a =? minute b) &&
     ((second a <? second b) ||
      ((second a =? second b) && (microsecond a <? microsecond b)))))).

(** A naive [datetime]: the proleptic ordinal of its date and its time. *)
Record py_datetime : Type := mkDateTime {
  dt_date : Z;
  dt_time : py_time
}.

Definition US_PER_DAY : Z := 86400000000.

Definition time_to_us (t : py_time) : Z :=
  ((hour t * 60 + minute t) * 60 + second t) * 1000000 + microsecond t.

Definition time_of_us (u : Z) : py_time :=
  mkTime (u / 3600000000) ((u / 60000000) mod 60) ((u / 1000000) mod 60) (u mod 1000000).

(** [datetime.combine(d, t)] *)
Definition combine (d : Z) (t : py_time) : py_datetime := mkDateTime d t.

(** [timedelta(days=n)] in microseconds. *)
Definition timedelta_days (n : Z) : Z := n * US_PER_DAY.

(** The ordinal of [date.max] (9999-12-31); [date.min] has ordinal 1. *)
Definition MAX_ORDINAL : Z := 3652059.

(** [dt + delta]: normalised back to a date and a time of day; an
    [OverflowError] (an [Exception]) when the date leaves
    [date.min .. date.max]. *)
Definition dt_add (dt : py_datetime) (delta : Z) : result py_datetime :=
  let total := dt_date dt * US_PER_DAY + time_to_us (dt_time dt) + delta in
  let d := total / US_PER_DAY in
  if (1 <=? d) && (d <=? MAX_ORDINAL)
  then Ok (mkDateTime d (time_of_us (total mod US_PER_DAY)))
  else Raise ExcException.

(** [hour, minute = map(int, SEND_TIME.split(':'))] for [SEND_TIME = "21:00"]. *)
Definition target_time : py_time := mkTime 21 0 0 0.

(** At scheduler start (lines 507-514). *)
Definition next_run_at_start (now : py_datetime) (target : py_time) : result py_datetime :=
  let today_run := combine (dt_date now) target in
  if time_lt (dt_time now) target then Ok today_run
  else dt_add today_run (timedelta_days 1).

(** At a heartbeat (lines 546-550). *)
Definition next_run_at_heartbeat (now : py_datetime) (target : py_time) : result py_datetime :=
  if time_lt (dt_time now) target then Ok (combine (dt_date now) target)
  else dt_add (combine (dt_date now) target) (timedelta_days 1).

Close Scope Z_scope.

(** ** Observations on a trace *)

(** The users whose outcome ([SUCCESS] or [FAILED]) is logged, in order. *)
Definition outcome_users (tr : list event) : list string :=
  flat_map (fun ev => match ev with
                      | EvLog _ (MsgUserSuccess u) => [u]
                      | EvLog _ (MsgUserFailed u) => [u]
                      | _ => []
                      end) tr.

(** An answer of the workflow body that [run_streak_bot] counts as a
    failed attempt. *)
Definition attempt_fails (r : result bool) : Prop :=
  r = Ok false \/ r = Raise ExcException.

(** ** Spec-side predicates and concrete inputs *)

(** The first account fails three times, the second succeeds. *)
Definition body_fail3_then_ok (n : nat) : result bool :=
  match n with
  | 0 => Ok false
  | 1 => Raise ExcException
  | 2 => Ok false
  | _ => Ok true
  end.

(** Every attempt succeeds. *)
Definition body_all_ok (_ : nat) : result bool := Ok true.

Definition env_dup_handles : run_env :=
  mkRunEnv (Ok tt) (Ok ["alice"; "bob"; "alice"]%string) (Ok tt) (Ok tt) body_all_ok.

Fixpoint count_delays (tr : list event) : nat :=
  match tr with
  | [] => 0
  | EvUserDelay :: rest => S (count_delays rest)
  | _ :: rest => count_delays rest
  end.

(** The first call of the workflow body is interrupted (Ctrl+C). *)
Definition body_interrupted_first (n : nat) : result bool :=
  match n with
  | 0 => Raise ExcBaseOnly
  | _ => Ok true
  end.

Definition env_interrupted : run_env :=
  mkRunEnv (Ok tt) (Ok ["a"; "b"]%string) (Ok tt) (Ok tt) body_interrupted_first.

(** The spec's words: a blank line has only whitespace; a comment line
    starts with ['#']. *)
Definition is_blank (line : string) : bool := forallb py_isspace (utf8_decode line).

Definition starts_with_hash (line : string) : bool :=
  match line with
  | String c _ => if ascii_dec c "#"%char then true else false
  | EmptyString => false
  end.

Definition nl : string := String "010"%char EmptyString.

(** U+00A0 (no-break space) and U+3000 (ideographic space), UTF-8 encoded. *)
Definition nbsp : string := utf8_encode [160%N].
Definition ideographic_space : string := utf8_encode [12288%N].

(** The locator [l] does not yield a present and displayed element. *)
Definition no_visible_match (page : page_state) (l : locator) : Prop :=
  forall e, page l = Ok e -> el_displayed e <> Ok true.

(** A page where the first expression times out and both the fourth
    and the sixth yield a displayed button. *)
Definition btn4 : elem := mkElem 4 (Ok true) (Ok tt).
Definition btn6 : elem := mkElem 6 (Ok true) (Ok tt).

Definition page_two_matches (l : locator) : result elem :=
  match l with
  | XPath x =>
      if String.eqb x "//div[@class='TUXButton-label' and text()='Message']/ancestor::button"
      then Ok btn4
      else if String.eqb x "//button[.//div[text()='Message']]" then Ok btn6
      else Raise ExcException
  | CSS _ => Raise ExcException
  end.

(** The method raised an exception that [except Exception] swallows. *)
Definition raised_Exception (p : string * result unit) : Prop := snd p = Raise ExcException.

Definition click_method_names : list string :=
  ["Normal click"; "Scroll + click"; "JavaScript click"; "ActionChains"]%string.

(** A button whose direct click is interrupted (Ctrl+C). *)
Definition button_interrupted : elem := mkElem 0 (Ok true) (Raise ExcBaseOnly).

Definition click_env_ok : click_env := mkClickEnv (Ok tt) (Ok tt) (Ok tt) (Ok tt).

(** The direct click is intercepted, scrolling then clicking works. *)
Definition button_intercepted : elem := mkElem 1 (Ok true) (Raise ExcException).

(** The close button found by [selector] is displayed and its click
    returns. *)
Definition close_click_returns (pg : captcha_page) (selector : string) : Prop :=
  exists btn, cp_find pg selector = Ok btn /\ el_displayed btn = Ok true /\ el_click btn = Ok tt.

(** A challenge page with no close button, where pressing ESC fails. *)
Definition captcha_page_esc_fails : captcha_page :=
  mkCaptchaPage (Ok "Please verify you are human"%string) (fun _ => Raise ExcException)
    (Raise ExcException).

(** A challenge page whose second close selector finds a displayed button. *)
Definition captcha_page_closable : captcha_page :=
  mkCaptchaPage (Ok "Drag the SLIDER to fit the puzzle"%string)
    (fun sel => if String.eqb sel "//button[contains(@class, 'close')]"
                then Ok (mkElem 7 (Ok true) (Ok tt)) else Raise ExcException)
    (Raise ExcException).

Definition now_after_send_time : py_datetime := mkDateTime 738000 (mkTime 21 0 0 0).

(** 9999-12-31 21:00, the last day [datetime] can represent. *)
Definition now_at_date_max : py_datetime := mkDateTime 3652059 (mkTime 21 0 0 0).

(** A list file with only a comment and a blank line. *)
Definition env_empty_list : run_env :=
  mkRunEnv (Ok tt) (Ok ["# nobody today"; "   "]%string) (Ok tt) (Ok tt) body_all_ok.

(** ** Further inputs: configuration errors and retry traces *)

(** The events of a trace other than screenshots. *)
Definition drop_screenshots (tr : list event) : list event :=
  filter (fun ev => match ev with EvScreenshot _ => false | _ => true end) tr.

Definition env_no_cookie_file : run_env :=
  mkRunEnv (Raise ExcException) (Ok ["a"]%string) (Ok tt) (Ok tt) body_all_ok.

(** ** The workflow body of send_streak_to_user *)

Definition CAPTCHA_CHECK_ATTEMPTS : nat := 3.

Definition STREAK_MESSAGES : list string := ["text 1"; "text 2"; "text 3"]%string.

Definition input_selectors : list string := [
  "//div[@contenteditable='true']";
  "//div[@data-e2e='dm-input']";
  "//div[@role='textbox']"
]%string.

Inductive key : Type :=
| KChar (c : ascii)
| KReturn.

(** Observable actions of one call of the workflow. *)
Inductive wevent : Type :=
| WGet (url : string)            (* driver.get(profile_url) *)
| WCaptchaCheck                  (* check_and_close_captcha(driver) *)
| WSleep (secs : nat)            (* time.sleep with a fixed duration *)
| WClickTried (methods : list string)  (* the click methods click_message_button ran *)
| WInputClick                    (* message_input.click() *)
| WKey (k : key)                 (* message_input.send_keys(...) *)
| WTypingDelay                   (* time.sleep(random.uniform(TYPING_DELAY_MIN, TYPING_DELAY_MAX)) *)
| WScreenshot (name : string).   (* driver.save_screenshot(name) *)

(** What the browser answers during one call of the workflow. *)
Record workflow_env : Type := mkWorkflowEnv {
  we_navigate : result unit;            (* driver.get(profile_url) *)
  we_captcha : nat -> captcha_page;     (* the page the n-th guard call sees *)
  we_button_page : page_state;          (* wait.until for the button locators *)
  we_click : click_env;                 (* the click methods other than button.click() *)
  we_input_page : string -> result elem;  (* wait.until for an input XPath *)
  we_choice : nat;                      (* the index random.choice picks *)
  we_send_key : nat -> result unit;     (* the n-th send_keys call *)
  we_screenshot : string -> result unit (* driver.save_screenshot(name) *)
}.

Definition profile_url (username : string) : string :=
  "https://www.tiktok.com/@" ++ username.

(** [for _ in range(CAPTCHA_CHECK_ATTEMPTS): if check_and_close_captcha(driver):
    time.sleep(2) else: break]; [n] counts the guard calls made. *)
Fixpoint captcha_loop (pages : nat -> captcha_page) (fuel n : nat) : list wevent * nat :=
  match fuel with
  | 0 => ([], n)
  | S f =>
      if check_and_close_captcha (pages n) then
        let '(evs, n') := captcha_loop pages f (S n) in (WCaptchaCheck :: WSleep 2 :: evs, n')
      else ([WCaptchaCheck], S n)
  end.

(** The input lookup: [message_input] keeps the last element located,
    and the loop breaks only on a displayed one. *)
Fixpoint find_input (page : string -> result elem) (sels : list string)
    (message_input : option elem) : option elem :=
  match sels with
  | [] => message_input
  | selector :: rest =>
      match page selector with
      | Raise _ => find_input page rest message_input
      | Ok e =>
          match el_displayed e with
          | Ok true => Some e
          | _ => find_input page rest (Some e)
          end
      end
  end.

(** [human_type(element, text)]: one [send_keys] per character, then a
    random pause; [k] indexes the [send_keys] calls. *)
Fixpoint human_type (send_key : nat -> result unit) (k : nat) (text : string)
    : list wevent * result nat :=
  match text with
  | EmptyString => ([], Ok k)
  | String c rest =>
      match send_key k with
      | Raise e => ([WKey (KChar c)], Raise e)
      | Ok _ =>
          let '(evs, r) := human_type send_key (S k) rest in
          (WKey (KChar c) :: WTypingDelay :: evs, r)
      end
  end.

Definition screenshot_name (stage username : string) : string :=
  "debug_" ++ stage ++ "_" ++ username ++ ".png".

(** The body of the [try] block of [send_streak_to_user]. *)
(** [driver.save_screenshot(name)] then [return False], inside the
    workflow's [try]: a failing screenshot raises instead. *)
Definition debug_shot (env : workflow_env) (name : string) (evs : list wevent)
    : list wevent * result bool :=
  (evs ++ [WScreenshot name],
   match we_screenshot env name with Ok _ => Ok false | Raise e => Raise e end).

Definition streak_workflow_body (env : workflow_env) (username0 : string)
    : list wevent * result bool :=
  let username := py_lstrip_at username0 in
  let ev_nav := [WGet (profile_url username)] in
  match we_navigate env with
  | Raise e => (ev_nav, Raise e)
  | Ok _ =>
    let '(ev_g1, g) := captcha_loop (we_captcha env) CAPTCHA_CHECK_ATTEMPTS 0 in
    let ev1 := ev_nav ++ [WSleep 5] ++ ev_g1 in
    match find_message_button (we_button_page env) with
    | None => debug_shot env (screenshot_name "no_button" username) ev1
    | Some button =>
      let '(tried, clicked) := click_message_button (Some button) (we_click env) in
      let ev2 := ev1 ++ [WClickTried tried] in
      match clicked with
      | Raise e => (ev2, Raise e)
      | Ok false => debug_shot env (screenshot_name "click_failed" username) ev2
      | Ok true =>
        let _ := check_and_close_captcha (we_captcha env g) in
        let ev3 := ev2 ++ [WCaptchaCheck] in
        match find_input (we_input_page env) input_selectors None with
        | None => debug_shot env (screenshot_name "no_input" username) ev3
        | Some message_input =>
          let ev4 := ev3 ++ [WInputClick] in
          match el_click message_input with
          | Raise e => (ev4, Raise e)
          | Ok _ =>
            let streak_message :=
              nth (we_choice env mod List.length STREAK_MESSAGES) STREAK_MESSAGES EmptyString in
            let '(ev_t, typed) := human_type (we_send_key env) 0 streak_message in
            let ev5 := ev4 ++ [WSleep 1] ++ ev_t in
            match typed with
            | Raise e => (ev5, Raise e)
            | Ok k =>
              match we_send_key env k with
              | Raise e => (ev5 ++ [WSleep 1; WKey KReturn], Raise e)
              | Ok _ => (ev5 ++ [WSleep 1; WKey KReturn; WSleep 2], Ok true)
              end
            end
          end
        end
      end
    end
  end.

(** [send_streak_to_user] with the body above: [except Exception] takes a
    screenshot (under a bare [try]) and returns [False]. *)
Definition send_streak_workflow (env : workflow_env) (username0 : string)
    : list wevent * result bool :=
  let '(evs, r) := streak_workflow_body env username0 in
  match r with
  | Raise ExcException =>
      (evs ++ [WScreenshot (screenshot_name "error" (py_lstrip_at username0))], Ok false)
  | _ => (evs, r)
  end.

(** The keys a trace sends. *)
Definition keys_sent (evs : list wevent) : list key :=
  flat_map (fun ev => match ev with WKey k => [k] | _ => [] end) evs.

Fixpoint keys_of_string (s : string) : list key :=
  match s with
  | EmptyString => []
  | String c s' => KChar c :: keys_of_string s'
  end.

(** The last selector (in order) that locates an element, if any. *)
Fixpoint last_located (page : string -> result elem) (sels : list string) : option elem :=
  match sels with
  | [] => None
  | selector :: rest =>
      match last_located page rest with
      | Some e => Some e
      | None => match page selector with Ok e => Some e | Raise _ => None end
      end
  end.

(** An input page on which the first selector locates a hidden element
    and the other two time out. *)
Definition hidden_input : elem := mkElem 9 (Ok false) (Ok tt).

Definition input_page_hidden (selector : string) : result elem :=
  if String.eqb selector "//div[@contenteditable='true']" then Ok hidden_input
  else Raise ExcException.

Definition send_key_ok (_ : nat) : result unit := Ok tt.

Definition send_key_fails_at_2 (n : nat) : result unit :=
  if Nat.eqb n 2 then Raise ExcException else Ok tt.

(** The number of guard calls in a workflow trace. *)
Definition count_checks (evs : list wevent) : nat :=
  List.length (filter (fun ev => match ev with WCaptchaCheck => true | _ => false end) evs).

(** A guard that finds and dismisses a challenge on every call. *)
Definition captcha_always : nat -> captcha_page := fun _ => captcha_page_closable.

(** A workflow environment where the button and the input are found and
    every call returns. *)
Definition wenv_ok : workflow_env :=
  mkWorkflowEnv (Ok tt) (fun _ => captcha_page_esc_fails) page_two_matches click_env_ok
    (fun _ => Ok (mkElem 10 (Ok true) (Ok tt))) 4 send_key_ok (fun _ => Ok tt).

(** The same page without any message button, where screenshots fail. *)
Definition wenv_no_button : workflow_env :=
  mkWorkflowEnv (Ok tt) (fun _ => captcha_page_esc_fails) (fun _ => Raise ExcException)
    click_env_ok (fun _ => Raise ExcException) 0 send_key_ok (fun _ => Raise ExcException).

(** ** [load_cookies_to_driver] *)

(** A cookie of the exported JSON.  [None] is a missing key;
    [ck_expirationDate = Some None] is a value that [int()] rejects
    (a [ValueError] or [TypeError], both [Exception]s). *)
Record cookie := mkCookie {
  ck_name : option string;
  ck_value : option string;
  ck_domain : option string;
  ck_path : option string;
  ck_expirationDate : option (option Z);
  ck_secure : option bool;
  ck_httpOnly : option bool
}.

(** The dict passed to [driver.add_cookie]; [None] is a key not set. *)
Record cookie_dict := mkCookieDict {
  cd_name : option string;
  cd_value : option string;
  cd_domain : string;
  cd_path : option string;
  cd_expiry : option Z;
  cd_secure : option bool;
  cd_httpOnly : option bool
}.

Definition make_cookie_dict (cookie : cookie) : result cookie_dict :=
  match ck_expirationDate cookie with
  | Some None => Raise ExcException
  | expiration =>
      Ok (mkCookieDict (ck_name cookie) (ck_value cookie)
            (match ck_domain cookie with Some d => d | None => ".tiktok.com" end)
            (ck_path cookie)
            (match expiration with Some (Some z) => Some z | _ => None end)
            (ck_secure cookie) (ck_httpOnly cookie))
  end.

Inductive cevent :=
| CGet (url : string)
| CSleep (n : nat)
| CAddCookie (d : cookie_dict)
| CWarn (name : option string)
| CLoaded.

(** The [for cookie in cookies] loop: [except Exception] logs a warning
    and goes on with the next cookie. *)
Fixpoint add_cookies (add_cookie : cookie_dict -> result unit) (cookies : list cookie)
    : list cevent * result unit :=
  match cookies with
  | [] => ([], Ok tt)
  | c :: rest =>
      let '(evs, r) :=
        match make_cookie_dict c with
        | Raise e => ([], Raise e)
        | Ok d => ([CAddCookie d], add_cookie d)
        end in
      match r with
      | Raise ExcBaseOnly => (evs, Raise ExcBaseOnly)
      | _ =>
          let warn := match r with Raise _ => [CWarn (ck_name c)] | Ok _ => [] end in
          let '(evs', r') := add_cookies add_cookie rest in
          (evs ++ warn ++ evs', r')
      end
  end.

Definition load_cookies_to_driver (get : result unit) (add_cookie : cookie_dict -> result unit)
    (cookies : list cookie) : list cevent * result unit :=
  match get with
  | Raise e => ([CGet "https://www.tiktok.com"], Raise e)
  | Ok _ =>
      let '(evs, r) := add_cookies add_cookie cookies in
      match r with
      | Raise e => (CGet "https://www.tiktok.com" :: CSleep 2 :: evs, Raise e)
      | Ok _ => (CGet "https://www.tiktok.com" :: CSleep 2 :: evs ++ [CLoaded], Ok tt)
      end
  end.

Definition cookies_added (evs : list cevent) : list cookie_dict :=
  flat_map (fun ev => match ev with CAddCookie d => [d] | _ => [] end) evs.

Definition cookies_warned (evs : list cevent) : list (option string) :=
  flat_map (fun ev => match ev with CWarn n => [n] | _ => [] end) evs.

(** Whether handling [cookie] fails with a warning. *)
Definition cookie_fails (add_cookie : cookie_dict -> result unit) (c : cookie) : bool :=
  match make_cookie_dict c with
  | Raise _ => true
  | Ok d => match add_cookie d with Raise _ => true | Ok _ => false end
  end.

Definition cookie_dicts (cookies : list cookie) : list cookie_dict :=
  flat_map (fun c => match make_cookie_dict c with Ok d => [d] | Raise _ => [] end) cookies.

Definition ck_plain (n : string) : cookie :=
  mkCookie (Some n) (Some "v"%string) None None None None None.

Definition cookies_mixed : list cookie :=
  [ck_plain "sessionid";
   mkCookie (Some "tt_csrf"%string) (Some "x"%string) (Some ".www.tiktok.com"%string) (Some "/"%string) (Some None) None None;
   ck_plain "bad";
   mkCookie (Some "sid_tt"%string) (Some "y"%string) None (Some "/"%string) (Some (Some 1767225600%Z)) (Some true) (Some true)].

(** [add_cookie] refusing the cookie named ["bad"]. *)
Definition add_cookie_refuses_bad (d : cookie_dict) : result unit :=
  match cd_name d with
  | Some n => if String.eqb n "bad" then Raise ExcException else Ok tt
  | None => Ok tt
  end.

(** ** The main loop of [start_daily_scheduler] *)

(** The exceptions the loop tells apart. *)
Inductive sexn := SKeyboardInterrupt | SOtherBase | SException.

(** What one pass of [while True] sees: the outcome of
    [schedule.run_pending()], the [datetime.now()] reading in
    microseconds, the outcome of the [time.sleep(60)] in the [try], and
    the outcomes of the handler statements, which run outside the [try]:
    the prints and [log_activity] of [except KeyboardInterrupt], the
    error print and [log_activity] of [except Exception], and its
    "Retrying" print and [time.sleep(60)]. *)
Record tick := mkTick {
  tk_pending : sum unit sexn;
  tk_now : Z;
  tk_sleep : sum unit sexn;
  tk_stop_handler : sum unit sexn;
  tk_error_log : sum unit sexn;
  tk_retry_sleep : sum unit sexn
}.

Inductive sevent :=
| SHeartbeat (now : Z)
| SSleep60
| SError
| SStopped.

(** [(now - last_check).total_seconds() >= 900], in microseconds. *)
Definition HEARTBEAT_US : Z := 900 * 1000000.

(** The [try] block of one pass: the events, its outcome and
    [last_check] after it. *)
Definition sched_try (tk : tick) (last_check : Z) : list sevent * sum unit sexn * Z :=
  match tk_pending tk with
  | inr e => ([], inr e, last_check)
  | inl _ =>
      let now := tk_now tk in
      let '(evs, last') :=
        if Z.leb HEARTBEAT_US (now - last_check) then ([SHeartbeat now], now)
        else ([], last_check) in
      match tk_sleep tk with
      | inr e => (evs, inr e, last')
      | inl _ => (evs ++ [SSleep60], inl tt, last')
      end
  end.

(** The [while True] loop over the given passes: [None] when it is still
    running after them, [Some (inl tt)] after [break], [Some (inr e)]
    when [e] escapes. *)
Fixpoint sched_loop (ticks : list tick) (last_check : Z)
    : list sevent * option (sum unit sexn) :=
  match ticks with
  | [] => ([], None)
  | tk :: rest =>
      let '(evs, r, last') := sched_try tk last_check in
      match r with
      | inl _ =>
          let '(evs', o) := sched_loop rest last' in (evs ++ evs', o)
      | inr SKeyboardInterrupt =>
          match tk_stop_handler tk with
          | inr e => (evs, Some (inr e))
          | inl _ => (evs ++ [SStopped], Some (inl tt))
          end
      | inr SException =>
          match tk_error_log tk with
          | inr e => (evs, Some (inr e))
          | inl _ =>
              match tk_retry_sleep tk with
              | inr e => (evs ++ [SError], Some (inr e))
              | inl _ =>
                  let '(evs', o) := sched_loop rest last' in
                  (evs ++ [SError; SSleep60] ++ evs', o)
              end
          end
      | inr SOtherBase => (evs, Some (inr SOtherBase))
      end
  end.



Definition count_sevent (x : sevent) (evs : list sevent) : nat :=
  List.length (filter (fun ev => match ev, x with
                                 | SSleep60, SSleep60 | SError, SError | SStopped, SStopped => true
                                 | _, _ => false end) evs).

Definition tick_ok (now : Z) : tick := mkTick (inl tt) now (inl tt) (inl tt) (inl tt) (inl tt).
Definition tick_job_error (now : Z) : tick :=
  mkTick (inr SException) now (inl tt) (inl tt) (inl tt) (inl tt).

(** The outcome of the [try] block of a pass. *)
Definition try_outcome (tk : tick) : sum unit sexn :=
  match tk_pending tk with inr e => inr e | inl _ => tk_sleep tk end.

(** [e] is raised by the handler that catches the pass's exception. *)
Definition handler_raises (tk : tick) (e : sexn) : Prop :=
  match try_outcome tk with
  | inr SKeyboardInterrupt => tk_stop_handler tk = inr e
  | inr SException =>
      tk_error_log tk = inr e \/ (tk_error_log tk = inl tt /\ tk_retry_sleep tk = inr e)
  | _ => False
  end.

(** An hour of passes, one a minute, where the job fails at minutes 10
    and 20. *)
Definition ticks_hour : list tick :=
  map (fun m : nat => let now := (Z.of_nat m * 60 * 1000000)%Z in
                      if orb (Nat.eqb m 10) (Nat.eqb m 20) then tick_job_error now else tick_ok now)
      (seq 1 60).

(** A call of the captcha guard (which may itself click a close button
    or press ESC on the page) or a pause. *)
Definition guard_or_pause (ev : wevent) : Prop := ev = WCaptchaCheck \/ exists n, ev = WSleep n.

(** A pass where nothing but the job may fail, and only with an
    [Exception]. *)
Definition benign_tick (tk : tick) : Prop :=
  (tk_pending tk = inl tt \/ tk_pending tk = inr SException) /\
  tk_sleep tk = inl tt /\ tk_error_log tk = inl tt /\ tk_retry_sleep tk = inl tt.

Definition job_failed (tk : tick) : bool :=
  match tk_pending tk with inr SException => true | _ => false end.

(** * Proofs *)

Ltac unfold_m :=
  unfold bind, send_streak_to_user, try_except, emit, workflow_body,
    log_activity, ret, lift, catch_all, then_res in *.

Lemma outcome_users_app (a b : list event) :
  outcome_users (a ++ b) = outcome_users a ++ outcome_users b.
Proof. unfold outcome_users. apply flat_map_app. Qed.

Ltac outcome_simpl :=
  repeat rewrite ?outcome_users_app; cbn [outcome_users flat_map app];
  rewrite ?app_nil_r, <- ?app_assoc; cbn [app].

(** One user's retry loop, whatever the body answers: either it ends
    with exactly one more success or failure counted and logged, or an
    exception outside [Exception] answered by the body escapes it. *)
Lemma attempt_loop_total (body : nat -> result bool) (u : string) (sc fc : nat) (s : St) :
  match attempt_loop body u (seq 0 MAX_RETRIES) sc fc s with
  | (s', Ok p) =>
      fst p + snd p = S (sc + fc) /\
      outcome_users (st_trace s') = outcome_users (st_trace s) ++ [u] /\
      st_calls s < st_calls s' <= st_calls s + MAX_RETRIES
  | (_, Raise e) => e = ExcBaseOnly /\ exists n, body n = Raise ExcBaseOnly
  end.
Proof.
  destruct s as [c d tr]. unfold MAX_RETRIES. cbn [seq attempt_loop].
  unfold_m; cbn.
  destruct (body c) as [[|]|[|]] eqn:E0; cbn;
    [ | | | eauto].
  all: try (split; [reflexivity | split; [outcome_simpl; reflexivity | lia]]).
  all: try (destruct (body (S c)) as [[|]|[|]] eqn:E1; cbn;
             [ | | | eauto]).
  all: try (split; [reflexivity | split; [outcome_simpl; reflexivity | lia]]).
  all: try (destruct (body (S (S c))) as [[|]|[|]] eqn:E2; cbn;
             [ | | | eauto]).
  all: split; [lia | split; [outcome_simpl; reflexivity | lia]].
Qed.

(** The users loop: every user of [todo] gets exactly one outcome, in
    order, unless an exception outside [Exception] escapes. *)
Lemma user_loop_total (body : nat -> result bool) (users todo : list string) :
  forall (sc fc : nat) (s : St),
  match user_loop body users todo sc fc s with
  | (s', Ok p) =>
      fst p + snd p = sc + fc + List.length todo /\
      outcome_users (st_trace s') = outcome_users (st_trace s) ++ todo
  | (_, Raise e) => e = ExcBaseOnly /\ exists n, body n = Raise ExcBaseOnly
  end.
Proof.
  induction todo as [|u rest IH]; intros sc fc s.
  - cbn. rewrite app_nil_r. split; [lia | reflexivity].
  - cbn [user_loop]. unfold bind at 1.
    pose proof (attempt_loop_total body u sc fc s) as Ha.
    destruct (attempt_loop body u (seq 0 MAX_RETRIES) sc fc s) as [s1 [p|e]].
    + destruct Ha as [Hp [Ho _]].
      assert (Hd : exists s2, (if negb (String.eqb u (py_last users)) then emit EvUserDelay
                               else ret tt) s1 = (s2, Ok tt) /\
                              outcome_users (st_trace s2) = outcome_users (st_trace s1)).
      { destruct (negb (String.eqb u (py_last users))); unfold emit, ret.
        - eexists; split; [reflexivity|]. cbn. rewrite outcome_users_app. cbn.
          apply app_nil_r.
        - eexists; split; reflexivity. }
      destruct Hd as [s2 [Hd Ho2]]. unfold bind. rewrite Hd.
      specialize (IH (fst p) (snd p) s2).
      destruct (user_loop body users rest (fst p) (snd p) s2) as [s3 [q|e]].
      * destruct IH as [Hq Hoq]. cbn [List.length]. split; [lia|].
        rewrite Hoq, Ho2, Ho, <- app_assoc. reflexivity.
      * exact IH.
    + exact Ha.
Qed.

(** With no [KeyboardInterrupt]-like exception from the body, the users
    loop always finishes. *)
Lemma user_loop_finishes (body : nat -> result bool) (users todo : list string) :
  (forall n, body n <> Raise ExcBaseOnly) ->
  forall (sc fc : nat) (s : St),
  exists s' p, user_loop body users todo sc fc s = (s', Ok p).
Proof.
  intros Hno sc fc s.
  pose proof (user_loop_total body users todo sc fc s) as H.
  destruct (user_loop body users todo sc fc s) as [s' [p|e]].
  - eauto.
  - destruct H as [_ [n Hn]]. exfalso. exact (Hno n Hn).
Qed.

(** ** C1 *)

(** C1: when the batch loop of [run_streak_bot] completes over a loaded
    account list, [success_count + fail_count] equals the number of
    accounts: each account adds exactly one success or one failure. *)
Theorem batch_counts_sum (body : nat -> result bool) (users : list string)
    (s s' : St) (sc fc : nat) :
  user_loop body users users 0 0 s = (s', Ok (sc, fc)) ->
  sc + fc = List.length users.
Proof.
  intros H.
  pose proof (user_loop_total body users users 0 0 s) as Ht.
  rewrite H in Ht. destruct Ht as [Hsum _]. cbn in Hsum. exact Hsum.
Qed.

Lemma batch_counts_sum_witness :
  snd (user_loop body_fail3_then_ok ["a"; "b"]%string ["a"; "b"]%string 0 0 st0) = Ok (1, 1) /\
  1 + 1 = List.length ["a"; "b"]%string.
Proof.
  split.
  - vm_compute. reflexivity.
  - apply (batch_counts_sum body_fail3_then_ok ["a"; "b"]%string st0
             (fst (user_loop body_fail3_then_ok ["a"; "b"]%string ["a"; "b"]%string 0 0 st0))).
    vm_compute. reflexivity.
Defined.

(** ** C2 *)

Ltac fail_rw H := destruct H as [H|H]; rewrite H; cbn.

(** C2: for one account the retry loop calls the workflow exactly
    [MAX_RETRIES] times when every call fails, then counts one failure;
    when the [k]-th call is the first success it calls it exactly [k]
    times and counts one success.  [st_calls] counts the calls. *)
Theorem retries_per_account (body : nat -> result bool) (u : string) (sc fc : nat) (s : St) :
  ((forall i, i < MAX_RETRIES -> attempt_fails (body (st_calls s + i))) ->
   exists s', attempt_loop body u (seq 0 MAX_RETRIES) sc fc s = (s', Ok (sc, S fc)) /\
              st_calls s' = st_calls s + MAX_RETRIES) /\
  (forall k, 1 <= k <= MAX_RETRIES ->
   (forall i, i < k - 1 -> attempt_fails (body (st_calls s + i))) ->
   body (st_calls s + (k - 1)) = Ok true ->
   exists s', attempt_loop body u (seq 0 MAX_RETRIES) sc fc s = (s', Ok (S sc, fc)) /\
              st_calls s' = st_calls s + k).
Proof.
  destruct s as [c d tr]. cbn [st_calls]. unfold MAX_RETRIES. split.
  - intros H.
    pose proof (H 0 ltac:(lia)) as H0. pose proof (H 1 ltac:(lia)) as H1.
    pose proof (H 2 ltac:(lia)) as H2.
    replace (c + 0) with c in H0 by lia. replace (c + 1) with (S c) in H1 by lia.
    replace (c + 2) with (S (S c)) in H2 by lia.
    cbn [seq attempt_loop]. unfold_m; cbn.
    fail_rw H0; fail_rw H1; fail_rw H2; eexists; (split; [reflexivity | cbn; lia]).
  - intros k Hk Hpre Hok. cbn [seq attempt_loop]. unfold_m; cbn.
    destruct k as [|[|[|[|k]]]]; try lia.
    + replace (c + (1 - 1)) with c in Hok by lia. rewrite Hok; cbn.
      eexists; split; [reflexivity | cbn; lia].
    + pose proof (Hpre 0 ltac:(lia)) as H0. replace (c + 0) with c in H0 by lia.
      replace (c + (2 - 1)) with (S c) in Hok by lia.
      fail_rw H0; rewrite Hok; cbn; eexists; (split; [reflexivity | cbn; lia]).
    + pose proof (Hpre 0 ltac:(lia)) as H0. pose proof (Hpre 1 ltac:(lia)) as H1.
      replace (c + 0) with c in H0 by lia. replace (c + 1) with (S c) in H1 by lia.
      replace (c + (3 - 1)) with (S (S c)) in Hok by lia.
      fail_rw H0; fail_rw H1; rewrite Hok; cbn; eexists; (split; [reflexivity | cbn; lia]).
Qed.

Lemma retries_per_account_witness :
  (forall i, i < MAX_RETRIES -> attempt_fails (body_fail3_then_ok (st_calls st0 + i))) /\
  exists s', attempt_loop body_fail3_then_ok "a"%string (seq 0 MAX_RETRIES) 0 0 st0
             = (s', Ok (0, 1)) /\ st_calls s' = st_calls st0 + MAX_RETRIES.
Proof.
  assert (Hf : forall i, i < MAX_RETRIES -> attempt_fails (body_fail3_then_ok (st_calls st0 + i))).
  { intros i Hi. unfold MAX_RETRIES in Hi. unfold attempt_fails.
    destruct i as [|[|[|i]]]; cbn; [left | right | left | lia]; reflexivity. }
  split; [exact Hf|].
  exact (proj1 (retries_per_account body_fail3_then_ok "a"%string 0 0 st0) Hf).
Defined.

(** ** C3 *)

(** C3 (the run on the list [alice; bob; alice]): the inter-account delay
    compares the handle with [users[-1]] by value, so it is skipped after
    the first [alice] although [alice] is not in the last position there:
    the run sleeps once between three accounts, not twice. *)
Theorem delay_skipped_for_duplicate_of_last :
  count_delays (st_trace (fst (run_streak_bot env_dup_handles st0))) = 1 /\
  outcome_users (st_trace (fst (run_streak_bot env_dup_handles st0)))
    = ["alice"; "bob"; "alice"]%string.
Proof. split; vm_compute; reflexivity. Qed.

(** ** C5 *)

(** C5 as stated fails: a [KeyboardInterrupt] raised inside the workflow
    is not caught by its [except Exception]; it escapes
    [send_streak_to_user] and [run_streak_bot], and account [b] is never
    attempted. *)
Lemma interrupt_escapes_workflow :
  snd (send_streak_to_user body_interrupted_first "a"%string st0) = Raise ExcBaseOnly /\
  snd (run_streak_bot env_interrupted st0) = Raise ExcBaseOnly /\
  ~ In (EvSend "b"%string) (st_trace (fst (run_streak_bot env_interrupted st0))).
Proof.
  split; [vm_compute; reflexivity|].
  split; [vm_compute; reflexivity|].
  vm_compute. intros H. repeat (destruct H as [H|H]; [discriminate H|]). exact H.
Qed.

(** C5 (amended): [send_streak_to_user] turns every exception of class
    [Exception] raised by the workflow body into [False] and lets only
    the others ([KeyboardInterrupt], [SystemExit]) escape; when the body
    raises none of those, the batch loop always finishes and logs an
    outcome for every account of the list, in order, whatever the
    earlier accounts' outcomes. *)
Theorem send_failure_isolation (body : nat -> result bool) :
  (forall (u : string) (s : St),
     match send_streak_to_user body u s with
     | (_, Ok b) => body (st_calls s) = Ok b \/
                    (body (st_calls s) = Raise ExcException /\ b = false)
     | (_, Raise e) => e = ExcBaseOnly /\ body (st_calls s) = Raise ExcBaseOnly
     end) /\
  ((forall n, body n <> Raise ExcBaseOnly) ->
   forall (users : list string) (s : St),
   exists s' p, user_loop body users users 0 0 s = (s', Ok p) /\
                outcome_users (st_trace s') = outcome_users (st_trace s) ++ users).
Proof.
  split.
  - intros u [c d tr]. unfold_m; cbn.
    destruct (body c) as [b|[|]]; cbn; auto.
  - intros Hno users s.
    destruct (user_loop_finishes body users users Hno 0 0 s) as [s' [p Hp]].
    pose proof (user_loop_total body users users 0 0 s) as Ht.
    rewrite Hp in Ht. destruct Ht as [_ Ho]. eauto.
Qed.

Lemma send_failure_isolation_witness :
  (forall n, body_fail3_then_ok n <> Raise ExcBaseOnly) /\
  exists s' p, user_loop body_fail3_then_ok ["a"; "b"]%string ["a"; "b"]%string 0 0 st0
                 = (s', Ok p) /\
               outcome_users (st_trace s') = outcome_users (st_trace st0) ++ ["a"; "b"]%string.
Proof.
  assert (Hno : forall n, body_fail3_then_ok n <> Raise ExcBaseOnly).
  { intros [|[|[|n]]]; cbn; discriminate. }
  split; [exact Hno|].
  exact (proj2 (send_failure_isolation body_fail3_then_ok) Hno ["a"; "b"]%string st0).
Defined.

(** ** C4 *)

Lemma forallb_cp_lstrip (p : N -> bool) (l : list N) :
  forallb p (cp_lstrip p l) = forallb p l.
Proof.
  induction l as [|n l IH]; cbn; [reflexivity|].
  destruct (p n) eqn:Hn; cbn; [exact IH | rewrite Hn; reflexivity].
Qed.

Lemma cp_lstrip_nil_iff (p : N -> bool) (l : list N) :
  cp_lstrip p l = [] <-> forallb p l = true.
Proof.
  induction l as [|n l IH]; cbn; [tauto|].
  destruct (p n); cbn; [exact IH | split; discriminate].
Qed.

Lemma utf8_encode_nil_iff (l : list N) : utf8_encode l = EmptyString <-> l = [].
Proof.
  destruct l as [|n l]; cbn; [tauto|]. split; [|discriminate].
  unfold utf8_encode_cp.
  destruct (n <? 128)%N; [discriminate|]. destruct (n <? 2048)%N; [discriminate|].
  destruct (n <? 65536)%N; discriminate.
Qed.

Lemma rev_nil_iff {A} (l : list A) : rev l = [] <-> l = [].
Proof.
  split; [|intros ->; reflexivity].
  intros H. rewrite <- (rev_involutive l), H. reflexivity.
Qed.

Lemma py_strip_empty_iff (line : string) :
  py_strip line = EmptyString <-> is_blank line = true.
Proof.
  unfold py_strip, is_blank.
  rewrite utf8_encode_nil_iff, rev_nil_iff, cp_lstrip_nil_iff, forallb_forall.
  setoid_rewrite <- in_rev. rewrite <- forallb_forall, forallb_cp_lstrip. tauto.
Qed.

Lemma startswith_hash (line : string) :
  py_startswith "#" line = starts_with_hash line.
Proof.
  destruct line as [|c r]; [reflexivity|].
  change (py_startswith "#" (String c r))
    with (if ascii_dec "#"%char c then String.prefix EmptyString r else false).
  cbn [starts_with_hash].
  destruct (ascii_dec "#"%char c) as [E|N]; destruct (ascii_dec c "#"%char) as [E'|N'];
    subst; try congruence; destruct r; reflexivity.
Qed.

(** C4: [load_users] keeps, in order, exactly the lines that are not
    blank (only whitespace, Unicode whitespace included) and do not start
    with ['#'], each with its surrounding whitespace and then its leading
    ['@'] marker(s) removed; in particular the lines [user1], [#comment],
    an empty line and [@user2] (with or without their line endings) give
    [[user1; user2]], and a handle followed by a no-break space gives the
    bare handle while a line of one ideographic space is skipped. *)
Theorem load_users_spec (lines : list string) :
  load_users (Ok lines) =
    Ok (map (fun line => py_lstrip_at (py_strip line))
            (filter (fun line => negb (is_blank line) && negb (starts_with_hash line)) lines)) /\
  users_of_lines ["user1"; "#comment"; ""; "@user2"]%string = ["user1"; "user2"]%string /\
  users_of_lines ["user1" ++ nl; "#comment" ++ nl; nl; "@user2" ++ nl]%string
    = ["user1"; "user2"]%string /\
  users_of_lines ["@bob" ++ nbsp ++ nl; ideographic_space ++ nl]%string = ["bob"]%string.
Proof.
  split; [|split; [reflexivity | split; vm_compute; reflexivity]].
  unfold load_users. f_equal.
  induction lines as [|line rest IH]; cbn; [reflexivity|].
  rewrite startswith_hash.
  unfold py_truthy.
  destruct (String.eqb (py_strip line) EmptyString) eqn:Hs.
  - apply String.eqb_eq, py_strip_empty_iff in Hs. rewrite Hs. exact IH.
  - assert (Hb : is_blank line = false).
    { destruct (is_blank line) eqn:Hb; [|reflexivity].
      apply py_strip_empty_iff in Hb. rewrite Hb in Hs. discriminate. }
    rewrite Hb. cbn. destruct (starts_with_hash line); cbn; [exact IH|].
    f_equal. exact IH.
Qed.

(** ** C7 *)

Lemma first_displayed_app (page : page_state) (a b : list locator) :
  first_displayed page (a ++ b) =
  match first_displayed page a with
  | Some x => Some x
  | None => first_displayed page b
  end.
Proof.
  induction a as [|l a IH]; cbn; [reflexivity|].
  destruct (page l) as [x|e]; [|exact IH].
  destruct (el_displayed x) as [[|]|e]; [reflexivity | exact IH | exact IH].
Qed.

Lemma find_message_button_unfold (page : page_state) :
  find_message_button page = first_displayed page message_button_locators.
Proof. unfold find_message_button, message_button_locators. rewrite first_displayed_app. reflexivity. Qed.

Lemma first_displayed_some (page : page_state) (sels : list locator) (e : elem) :
  first_displayed page sels = Some e <->
  exists pre l post, sels = pre ++ l :: post /\ page l = Ok e /\ el_displayed e = Ok true /\
                     Forall (no_visible_match page) pre.
Proof.
  induction sels as [|l rest IH]; cbn.
  - split; [discriminate|]. intros [pre [l [post [H _]]]]. destruct pre; discriminate H.
  - split.
    + destruct (page l) as [x|ex] eqn:Hl.
      * destruct (el_displayed x) as [[|]|ed] eqn:Hd.
        -- intros H. injection H as <-. exists [], l, rest. auto.
        -- intros H. apply IH in H. destruct H as [pre [l' [post [Hs [Hp [Hv Hf]]]]]].
           exists (l :: pre), l', post. subst rest. repeat split; auto.
           constructor; [|exact Hf]. intros e' He'. rewrite Hl in He'. injection He' as <-.
           rewrite Hd. discriminate.
        -- intros H. apply IH in H. destruct H as [pre [l' [post [Hs [Hp [Hv Hf]]]]]].
           exists (l :: pre), l', post. subst rest. repeat split; auto.
           constructor; [|exact Hf]. intros e' He'. rewrite Hl in He'. injection He' as <-.
           rewrite Hd. discriminate.
      * intros H. apply IH in H. destruct H as [pre [l' [post [Hs [Hp [Hv Hf]]]]]].
        exists (l :: pre), l', post. subst rest. repeat split; auto.
        constructor; [|exact Hf]. intros e' He'. rewrite Hl in He'. discriminate.
    + intros [pre [l' [post [Hs [Hp [Hv Hf]]]]]].
      destruct pre as [|l0 pre].
      * injection Hs as <- <-. rewrite Hp, Hv. reflexivity.
      * injection Hs as <- Hs. inversion Hf as [|? ? Hn Hf']; subst.
        assert (Hr : first_displayed page (pre ++ l' :: post) = Some e)
          by (apply IH; exists pre, l', post; auto).
        destruct (page l) as [x|ex] eqn:Hl; [|exact Hr].
        destruct (el_displayed x) as [[|]|ed] eqn:Hd; [|exact Hr|exact Hr].
        exfalso. exact (Hn x Hl Hd).
Qed.

Lemma first_displayed_none (page : page_state) (sels : list locator) :
  first_displayed page sels = None <-> Forall (no_visible_match page) sels.
Proof.
  induction sels as [|l rest IH]; cbn.
  - split; [constructor | reflexivity].
  - destruct (page l) as [x|ex] eqn:Hl.
    + destruct (el_displayed x) as [[|]|ed] eqn:Hd.
      * split; [discriminate|]. intros Hf. inversion Hf as [|? ? Hn _]; subst.
        exfalso. exact (Hn x Hl Hd).
      * rewrite IH. split; [intros Hf | intros Hf; inversion Hf; assumption].
        constructor; [|exact Hf]. intros e' He'. rewrite Hl in He'. injection He' as <-.
        rewrite Hd. discriminate.
      * rewrite IH. split; [intros Hf | intros Hf; inversion Hf; assumption].
        constructor; [|exact Hf]. intros e' He'. rewrite Hl in He'. injection He' as <-.
        rewrite Hd. discriminate.
    + rewrite IH. split; [intros Hf | intros Hf; inversion Hf; assumption].
      constructor; [|exact Hf]. intros e' He'. rewrite Hl in He'. discriminate.
Qed.

(** C7: on a given page state, [find_message_button] returns the element
    of the first locator expression, in the fixed order of the seven
    XPath and then the two CSS expressions, whose located element is
    displayed (so of several matching expressions the earliest wins), and
    returns [None] exactly when no expression yields a displayed
    element. *)
Theorem find_message_button_priority (page : page_state) (e : elem) :
  (find_message_button page = Some e <->
   exists pre l post, message_button_locators = pre ++ l :: post /\
                      page l = Ok e /\ el_displayed e = Ok true /\
                      Forall (no_visible_match page) pre) /\
  (find_message_button page = None <->
   Forall (no_visible_match page) message_button_locators).
Proof.
  rewrite find_message_button_unfold. split.
  - apply first_displayed_some.
  - apply first_displayed_none.
Qed.

Lemma find_message_button_priority_witness :
  find_message_button page_two_matches = Some btn4 /\
  exists pre l post, message_button_locators = pre ++ l :: post /\
                     page_two_matches l = Ok btn4 /\ el_displayed btn4 = Ok true /\
                     Forall (no_visible_match page_two_matches) pre.
Proof.
  assert (H : find_message_button page_two_matches = Some btn4) by (vm_compute; reflexivity).
  split; [exact H|].
  exact (proj1 (proj1 (find_message_button_priority page_two_matches btn4)) H).
Defined.

(** ** C6 *)

Lemma try_methods_raise_cons (name : string) (rest : list (string * result unit)) :
  try_methods ((name, Raise ExcException) :: rest) =
  (name :: fst (try_methods rest), snd (try_methods rest)).
Proof. cbn. destruct (try_methods rest); reflexivity. Qed.

Lemma try_methods_prefix (ms : list (string * result unit)) :
  fst (try_methods ms) = map fst (firstn (List.length (fst (try_methods ms))) ms) /\
  Forall raised_Exception (removelast (firstn (List.length (fst (try_methods ms))) ms)).
Proof.
  induction ms as [|[name r] rest IH]; [split; [reflexivity | constructor]|].
  destruct r as [u|[|]].
  - split; [reflexivity | constructor].
  - rewrite try_methods_raise_cons. cbn [fst List.length firstn map].
    destruct IH as [IH1 IH2]. split; [f_equal; exact IH1|].
    destruct (firstn (List.length (fst (try_methods rest))) rest) as [|p l] eqn:Hf.
    + constructor.
    + change (Forall raised_Exception ((name, Raise ExcException) :: removelast (p :: l))).
      constructor; [reflexivity | exact IH2].
  - split; [reflexivity | constructor].
Qed.

Lemma try_methods_true (ms : list (string * result unit)) :
  snd (try_methods ms) = Ok true <->
  exists pre name post, ms = pre ++ (name, Ok tt) :: post /\ Forall raised_Exception pre.
Proof.
  induction ms as [|[name r] rest IH].
  - cbn. split; [discriminate|]. intros [pre [n [post [H _]]]]. destruct pre; discriminate H.
  - split.
    + destruct r as [u|[|]].
      * intros _. destruct u. exists [], name, rest. split; [reflexivity | constructor].
      * rewrite try_methods_raise_cons. cbn [snd]. intros H. apply IH in H.
        destruct H as [pre [n [post [Hs Hf]]]]. exists ((name, Raise ExcException) :: pre), n, post.
        split; [rewrite Hs; reflexivity | constructor; [reflexivity | exact Hf]].
      * cbn. discriminate.
    + intros [pre [n [post [Hs Hf]]]]. destruct pre as [|p pre].
      * injection Hs as Hn Hr Hrest. subst. reflexivity.
      * injection Hs as Hp Hs. inversion Hf as [|? ? Hr Hf']; subst.
        unfold raised_Exception in Hr. cbn in Hr. subst r.
        rewrite try_methods_raise_cons. cbn [snd]. apply IH. eauto.
Qed.

Lemma try_methods_false (ms : list (string * result unit)) :
  snd (try_methods ms) = Ok false <-> Forall raised_Exception ms.
Proof.
  induction ms as [|[name r] rest IH].
  - cbn. split; [constructor | reflexivity].
  - destruct r as [u|[|]].
    + cbn. split; [discriminate|]. intros Hf. inversion Hf as [|? ? Hr _]. discriminate Hr.
    + rewrite try_methods_raise_cons. cbn [snd]. rewrite IH.
      split; [intros Hf; constructor; [reflexivity | exact Hf] | intros Hf; inversion Hf; assumption].
    + cbn. split; [discriminate|]. intros Hf. inversion Hf as [|? ? Hr _]. discriminate Hr.
Qed.

Lemma try_methods_raise (ms : list (string * result unit)) (e : exn) :
  snd (try_methods ms) = Raise e -> e = ExcBaseOnly.
Proof.
  induction ms as [|[name r] rest IH]; cbn; [discriminate|].
  destruct r as [u|[|]].
  - discriminate.
  - destruct (try_methods rest) as [t res]. exact IH.
  - intros H. injection H as <-. reflexivity.
Qed.

(** C6 as stated fails: an exception outside [Exception] raised by a
    click method is not swallowed and propagates to the caller. *)
Lemma click_interrupt_propagates :
  snd (click_message_button (Some button_interrupted) click_env_ok) = Raise ExcBaseOnly /\
  fst (click_message_button (Some button_interrupted) click_env_ok) = ["Normal click"]%string.
Proof. split; reflexivity. Qed.

(** C6 (amended): on a located button, [click_message_button] runs the
    four methods in the fixed order, each only after all earlier ones
    raised an [Exception] (so at most the last one run completed); it
    returns [True] exactly when some method completes after the earlier
    ones raised [Exception]s, [False] exactly when all four raise
    [Exception]s, and the only exceptions it propagates are those outside
    [Exception] ([KeyboardInterrupt], [SystemExit]). *)
Theorem click_message_button_fallback (b : elem) (env : click_env) :
  fst (click_message_button (Some b) env) =
    firstn (List.length (fst (click_message_button (Some b) env))) click_method_names /\
  Forall raised_Exception
    (removelast (firstn (List.length (fst (click_message_button (Some b) env))) (click_methods b env))) /\
  (snd (click_message_button (Some b) env) = Ok true <->
   exists pre name post, click_methods b env = pre ++ (name, Ok tt) :: post /\
                         Forall raised_Exception pre) /\
  (snd (click_message_button (Some b) env) = Ok false <->
   Forall raised_Exception (click_methods b env)) /\
  (forall e, snd (click_message_button (Some b) env) = Raise e -> e = ExcBaseOnly).
Proof.
  cbn [click_message_button].
  destruct (try_methods_prefix (click_methods b env)) as [H1 H2].
  split; [|split; [exact H2 | split; [apply try_methods_true |
                                        split; [apply try_methods_false | apply try_methods_raise]]]].
  rewrite H1 at 1. rewrite <- firstn_map. reflexivity.
Qed.

Lemma click_message_button_fallback_witness :
  snd (click_message_button (Some button_intercepted) click_env_ok) = Ok true /\
  exists pre name post, click_methods button_intercepted click_env_ok = pre ++ (name, Ok tt) :: post /\
                        Forall raised_Exception pre.
Proof.
  assert (H : snd (click_message_button (Some button_intercepted) click_env_ok) = Ok true)
    by reflexivity.
  split; [exact H|].
  exact (proj1 (proj1 (proj2 (proj2 (click_message_button_fallback button_intercepted click_env_ok)))) H).
Defined.

(** ** C8 *)

Lemma try_close_true (pg : captcha_page) (sels : list string) :
  try_close pg sels = true <-> exists selector, In selector sels /\ close_click_returns pg selector.
Proof.
  induction sels as [|sel rest IH]; cbn.
  - split; [discriminate|]. intros [x [[] _]].
  - assert (Hrest : try_close pg rest = true -> exists selector,
                     (sel = selector \/ In selector rest) /\ close_click_returns pg selector).
    { intros H. apply IH in H. destruct H as [x [Hx Hc]]. eauto. }
    split.
    + destruct (cp_find pg sel) as [btn|e] eqn:Hf; [|exact Hrest].
      destruct (el_displayed btn) as [[|]|e] eqn:Hd; [|exact Hrest|exact Hrest].
      destruct (el_click btn) as [[]|e] eqn:Hc; [|exact Hrest].
      intros _. exists sel. split; [left; reflexivity|]. exists btn. auto.
    + intros [x [[<-|Hx] Hc]].
      * destruct Hc as [btn [Hf [Hd Hc]]]. rewrite Hf, Hd, Hc. reflexivity.
      * assert (Hr : try_close pg rest = true) by (apply IH; eauto).
        destruct (cp_find pg sel) as [btn|e]; [|exact Hr].
        destruct (el_displayed btn) as [[|]|e]; [|exact Hr|exact Hr].
        destruct (el_click btn) as [[]|e]; [reflexivity|exact Hr].
Qed.

(** C8 as stated fails: the challenge is detected and the ESC dismissal
    is attempted (no close button worked), but the attempt raises and
    the guard returns [False]. *)
Lemma captcha_detected_but_false :
  captcha_found (py_lower "Please verify you are human"%string) = true /\
  try_close captcha_page_esc_fails close_selectors = false /\
  check_and_close_captcha captcha_page_esc_fails = false.
Proof. split; [|split]; vm_compute; reflexivity. Qed.

(** C8 (amended): [check_and_close_captcha] returns [True] exactly when
    the page text could be read, contains one of the fixed indicators
    (case-insensitively), and a dismissal action returned without
    raising: the click of a displayed close button found by one of the
    close selectors, or else the ESC key; whether the challenge really
    went away is never checked.  It returns [False] when no indicator
    matches, when the text cannot be read, or when every dismissal
    action raised. *)
Theorem captcha_guard_result (pg : captcha_page) :
  check_and_close_captcha pg = true <->
  exists body, cp_body_text pg = Ok body /\ captcha_found (py_lower body) = true /\
    ((exists selector, In selector close_selectors /\ close_click_returns pg selector) \/
     cp_escape pg = Ok tt).
Proof.
  unfold check_and_close_captcha.
  destruct (cp_body_text pg) as [body|e].
  - destruct (captcha_found (py_lower body)) eqn:Hc.
    + destruct (try_close pg close_selectors) eqn:Ht.
      * split; [intros _|reflexivity]. exists body. repeat split; [exact Hc|].
        left. apply try_close_true. exact Ht.
      * destruct (cp_escape pg) as [[]|e].
        -- split; [intros _|reflexivity]. exists body. auto.
        -- split; [discriminate|]. intros [b [Hb [_ [Hx|Hx]]]].
           ++ apply try_close_true in Hx. congruence.
           ++ discriminate Hx.
    + split; [discriminate|]. intros [b [Hb [Hx _]]]. injection Hb as <-. congruence.
  - split; [discriminate|]. intros [b [Hb _]]. discriminate Hb.
Qed.

Lemma captcha_guard_result_witness :
  check_and_close_captcha captcha_page_closable = true /\
  exists body, cp_body_text captcha_page_closable = Ok body /\
    captcha_found (py_lower body) = true /\
    ((exists selector, In selector close_selectors /\ close_click_returns captcha_page_closable selector) \/
     cp_escape captcha_page_closable = Ok tt).
Proof.
  assert (H : check_and_close_captcha captcha_page_closable = true) by (vm_compute; reflexivity).
  split; [exact H|].
  exact (proj1 (captcha_guard_result captcha_page_closable) H).
Defined.

(** ** C9 *)

Open Scope Z_scope.

Lemma time_of_to_us (t : py_time) :
  time_valid t -> time_of_us (time_to_us t) = t.
Proof.
  destruct t as [h m s u]. unfold time_valid, time_to_us, time_of_us. cbn.
  intros (Hh & Hm & Hs & Hu). f_equal.
  - symmetry. apply Z.div_unique with ((m * 60 + s) * 1000000 + u); [left|]; lia.
  - replace ((((h * 60 + m) * 60 + s) * 1000000 + u) / 60000000) with (h * 60 + m)
      by (apply Z.div_unique with (s * 1000000 + u); [left|]; lia).
    symmetry. apply Z.mod_unique with h; [left|]; lia.
  - replace ((((h * 60 + m) * 60 + s) * 1000000 + u) / 1000000) with ((h * 60 + m) * 60 + s)
      by (apply Z.div_unique with u; [left|]; lia).
    symmetry. apply Z.mod_unique with (h * 60 + m); [left|]; lia.
  - symmetry. apply Z.mod_unique with ((h * 60 + m) * 60 + s); [left|]; lia.
Qed.

Lemma time_to_us_bound (t : py_time) :
  time_valid t -> 0 <= time_to_us t < US_PER_DAY.
Proof.
  destruct t as [h m s u]. unfold time_valid, time_to_us, US_PER_DAY. cbn. lia.
Qed.

(** [combine(d, t) + timedelta(days=1)] is [combine(d + 1, t)], or an
    [OverflowError] when [d] is [date.max]. *)
Lemma add_one_day (d : Z) (t : py_time) :
  time_valid t -> 1 <= d <= MAX_ORDINAL ->
  dt_add (combine d t) (timedelta_days 1) =
    if d <? MAX_ORDINAL then Ok (combine (d + 1) t) else Raise ExcException.
Proof.
  intros Ht Hd. pose proof (time_to_us_bound t Ht) as Hb.
  unfold dt_add, combine, timedelta_days. cbn [dt_date dt_time].
  replace ((d * US_PER_DAY + time_to_us t + 1 * US_PER_DAY) / US_PER_DAY) with (d + 1)
    by (apply Z.div_unique with (time_to_us t); [left|]; lia).
  destruct (d <? MAX_ORDINAL) eqn:Hlt.
  - apply Z.ltb_lt in Hlt.
    replace ((1 <=? d + 1) && (d + 1 <=? MAX_ORDINAL)) with true
      by (symmetry; apply andb_true_intro; split; apply Z.leb_le; lia).
    f_equal. f_equal.
    replace ((d * US_PER_DAY + time_to_us t + 1 * US_PER_DAY) mod US_PER_DAY) with (time_to_us t)
      by (apply Z.mod_unique with (d + 1); [left|]; lia).
    apply time_of_to_us. exact Ht.
  - apply Z.ltb_ge in Hlt.
    replace ((1 <=? d + 1) && (d + 1 <=? MAX_ORDINAL)) with false
      by (symmetry; apply andb_false_intro2; apply Z.leb_gt; lia).
    reflexivity.
Qed.

(** Python's field-by-field comparison of valid times is the order of
    their instants in the day. *)
Lemma time_lt_us (a b : py_time) :
  time_valid a -> time_valid b -> time_lt a b = (time_to_us a <? time_to_us b).
Proof.
  destruct a as [h1 m1 s1 u1], b as [h2 m2 s2 u2].
  unfold time_valid, time_lt, time_to_us. cbn. intros Ha Hb.
  destruct (h1 <? h2) eqn:E1; destruct (h1 =? h2) eqn:E2; destruct (m1 <? m2) eqn:E3;
    destruct (m1 =? m2) eqn:E4; destruct (s1 <? s2) eqn:E5; destruct (s1 =? s2) eqn:E6;
    destruct (u1 <? u2) eqn:E7; cbn; symmetry;
    rewrite ?Z.ltb_lt, ?Z.ltb_ge, ?Z.eqb_eq, ?Z.eqb_neq in *;
    first [apply Z.ltb_lt | apply Z.ltb_ge]; lia.
Qed.

(** C9 (counterexample): on 9999-12-31 at or after the configured time
    there is no next trigger instant: [today_run + timedelta(days=1)]
    raises [OverflowError], at scheduler start and at a heartbeat. *)
Theorem next_run_overflow_at_date_max :
  next_run_at_start now_at_date_max target_time = Raise ExcException /\
  next_run_at_heartbeat now_at_date_max target_time = Raise ExcException.
Proof. split; vm_compute; reflexivity. Qed.

(** C9 (amended): at scheduler start and at every heartbeat the next
    trigger is the same: today's date with the configured time when the
    current time of day is strictly before it, otherwise tomorrow's date
    with the configured time, except on the last representable date
    (9999-12-31), where adding the day raises [OverflowError]. *)
Theorem next_run_rule (now : py_datetime) (target : py_time) :
  time_valid target -> time_valid (dt_time now) -> 1 <= dt_date now <= MAX_ORDINAL ->
  next_run_at_start now target =
    (if time_to_us (dt_time now) <? time_to_us target then Ok (combine (dt_date now) target)
     else if dt_date now <? MAX_ORDINAL then Ok (combine (dt_date now + 1) target)
     else Raise ExcException) /\
  next_run_at_heartbeat now target =
    (if time_to_us (dt_time now) <? time_to_us target then Ok (combine (dt_date now) target)
     else if dt_date now <? MAX_ORDINAL then Ok (combine (dt_date now + 1) target)
     else Raise ExcException).
Proof.
  intros Ht Hn Hd.
  unfold next_run_at_start, next_run_at_heartbeat.
  rewrite (time_lt_us _ _ Hn Ht).
  destruct (time_to_us (dt_time now) <? time_to_us target).
  - split; reflexivity.
  - rewrite add_one_day by assumption. split; reflexivity.
Qed.

Lemma next_run_rule_witness :
  time_valid target_time /\ time_valid (dt_time now_after_send_time) /\
  1 <= dt_date now_after_send_time <= MAX_ORDINAL /\
  next_run_at_heartbeat now_after_send_time target_time = Ok (combine 738001 target_time).
Proof.
  assert (Ht : time_valid target_time) by (unfold time_valid; cbn; lia).
  assert (Hn : time_valid (dt_time now_after_send_time)) by (unfold time_valid; cbn; lia).
  assert (Hd : 1 <= dt_date now_after_send_time <= MAX_ORDINAL) by (cbn; unfold MAX_ORDINAL; lia).
  split; [exact Ht | split; [exact Hn | split; [exact Hd|]]].
  rewrite (proj2 (next_run_rule now_after_send_time target_time Ht Hn Hd)).
  reflexivity.
Defined.

Close Scope Z_scope.

(** ** C10 *)

(** C10: when the account list loads empty (and the cookies load),
    [run_streak_bot] logs the error and returns normally before the
    browser is launched: its whole trace is the three start lines, the
    two loads and the error, so no driver is set up, no account is sent
    to, no outcome is logged, and no exception reaches the scheduler
    loop. *)
Theorem empty_list_no_browser (env : run_env) :
  env_cookies env = Ok tt ->
  load_users (env_users_file env) = Ok [] ->
  run_streak_bot env st0 =
    (mkSt 0 false [EvLog INFO MsgBar; EvLog INFO MsgRunStarted; EvLog INFO MsgBar;
                   EvLoadCookies; EvLoadUsers;
                   EvLog ERROR (MsgText "No users in list.txt")], Ok tt).
Proof.
  destruct env as [ck uf su se bd]. cbn [env_cookies env_users_file].
  intros Hc Hu. subst ck.
  unfold run_streak_bot, try_finally, get_driver, set_driver. unfold_m. cbn.
  rewrite Hu. cbn. reflexivity.
Qed.

Lemma empty_list_no_browser_witness :
  env_cookies env_empty_list = Ok tt /\ load_users (env_users_file env_empty_list) = Ok [] /\
  run_streak_bot env_empty_list st0 =
    (mkSt 0 false [EvLog INFO MsgBar; EvLog INFO MsgRunStarted; EvLog INFO MsgBar;
                   EvLoadCookies; EvLoadUsers;
                   EvLog ERROR (MsgText "No users in list.txt")], Ok tt).
Proof.
  assert (Hc : env_cookies env_empty_list = Ok tt) by reflexivity.
  assert (Hu : load_users (env_users_file env_empty_list) = Ok []) by (vm_compute; reflexivity).
  split; [exact Hc | split; [exact Hu|]].
  exact (empty_list_no_browser env_empty_list Hc Hu).
Defined.

(** ** Further properties of run_streak_bot *)

(** A configuration error (missing or unreadable cookie file, or missing
    account list) ends the run before the browser is launched: the run
    logs the critical error and its traceback and returns normally. *)
Theorem config_error_no_browser (env : run_env) :
  (env_cookies env = Raise ExcException ->
   run_streak_bot env st0 =
     (mkSt 0 false [EvLog INFO MsgBar; EvLog INFO MsgRunStarted; EvLog INFO MsgBar;
                    EvLoadCookies; EvLog ERROR MsgCritical; EvLog ERROR MsgTraceback], Ok tt)) /\
  (env_cookies env = Ok tt -> env_users_file env = Raise ExcException ->
   run_streak_bot env st0 =
     (mkSt 0 false [EvLog INFO MsgBar; EvLog INFO MsgRunStarted; EvLog INFO MsgBar;
                    EvLoadCookies; EvLoadUsers; EvLog ERROR MsgCritical;
                    EvLog ERROR MsgTraceback], Ok tt)).
Proof.
  destruct env as [ck uf su se bd]. cbn [env_cookies env_users_file]. split.
  - intros ->. unfold run_streak_bot, try_finally, get_driver, set_driver. unfold_m. cbn.
    reflexivity.
  - intros -> ->. unfold run_streak_bot, try_finally, get_driver, set_driver. unfold_m. cbn.
    reflexivity.
Qed.

Lemma config_error_no_browser_witness :
  env_cookies env_no_cookie_file = Raise ExcException /\
  run_streak_bot env_no_cookie_file st0 =
     (mkSt 0 false [EvLog INFO MsgBar; EvLog INFO MsgRunStarted; EvLog INFO MsgBar;
                    EvLoadCookies; EvLog ERROR MsgCritical; EvLog ERROR MsgTraceback], Ok tt).
Proof.
  assert (H : env_cookies env_no_cookie_file = Raise ExcException) by reflexivity.
  split; [exact H|]. exact (proj1 (config_error_no_browser env_no_cookie_file) H).
Defined.

(** When all [MAX_RETRIES] attempts for an account fail, the loop logs
    the warnings [Retry 1/3] and [Retry 2/3], each followed by the 5 s
    pause, after the first two attempts, and after the third one logs
    [FAILED] with no pause (screenshots of caught exceptions aside). *)
Theorem retry_trace_all_fail (body : nat -> result bool) (u : string) (sc fc : nat) (s : St) :
  (forall i, i < MAX_RETRIES -> attempt_fails (body (st_calls s + i))) ->
  exists tr,
    st_trace (fst (attempt_loop body u (seq 0 MAX_RETRIES) sc fc s)) = st_trace s ++ tr /\
    drop_screenshots tr =
      [EvSend u; EvLog WARNING (MsgUserRetry u 1 3); EvSleep 5;
       EvSend u; EvLog WARNING (MsgUserRetry u 2 3); EvSleep 5;
       EvSend u; EvLog ERROR (MsgUserFailed u)].
Proof.
  destruct s as [c d tr]. cbn [st_calls st_trace]. unfold MAX_RETRIES. intros H.
  pose proof (H 0 ltac:(lia)) as H0. pose proof (H 1 ltac:(lia)) as H1.
  pose proof (H 2 ltac:(lia)) as H2.
  replace (c + 0) with c in H0 by lia. replace (c + 1) with (S c) in H1 by lia.
  replace (c + 2) with (S (S c)) in H2 by lia.
  cbn [seq attempt_loop]. unfold_m; cbn.
  fail_rw H0; fail_rw H1; fail_rw H2; eexists;
    (split; [rewrite <- !app_assoc; reflexivity | reflexivity]).
Qed.

Lemma retry_trace_all_fail_witness :
  (forall i, i < MAX_RETRIES -> attempt_fails (body_fail3_then_ok (st_calls st0 + i))) /\
  exists tr,
    st_trace (fst (attempt_loop body_fail3_then_ok "a"%string (seq 0 MAX_RETRIES) 0 0 st0)) =
      st_trace st0 ++ tr /\
    drop_screenshots tr =
      [EvSend "a"; EvLog WARNING (MsgUserRetry "a" 1 3); EvSleep 5;
       EvSend "a"; EvLog WARNING (MsgUserRetry "a" 2 3); EvSleep 5;
       EvSend "a"; EvLog ERROR (MsgUserFailed "a")]%string.
Proof.
  assert (Hf : forall i, i < MAX_RETRIES -> attempt_fails (body_fail3_then_ok (st_calls st0 + i))).
  { intros i Hi. unfold MAX_RETRIES in Hi. unfold attempt_fails.
    destruct i as [|[|[|i]]]; cbn; [left | right | left | lia]; reflexivity. }
  split; [exact Hf|].
  exact (retry_trace_all_fail body_fail3_then_ok "a"%string 0 0 st0 Hf).
Defined.

(** ** Properties of the workflow body *)

Lemma keys_sent_app (a b : list wevent) : keys_sent (a ++ b) = keys_sent a ++ keys_sent b.
Proof. unfold keys_sent. apply flat_map_app. Qed.

(** [human_type] sends the characters of the text one by one, in order,
    each followed by a random pause.  If every [send_keys] returns it
    made exactly one call per character; if the call for the character
    at position [i] raises, the characters up to and including that one
    were sent and the exception propagates to the caller. *)
Theorem human_type_keys (send_key : nat -> result unit) (text : string) :
  forall k,
  match human_type send_key k text with
  | (evs, Ok k') => k' = k + String.length text /\ keys_sent evs = keys_of_string text
  | (evs, Raise e) =>
      exists i, i < String.length text /\ send_key (k + i) = Raise e /\
                (forall j, j < i -> exists u, send_key (k + j) = Ok u) /\
                keys_sent evs = keys_of_string (substring 0 (S i) text)
  end.
Proof.
  induction text as [|c rest IH]; intros k; cbn [human_type].
  - split; [cbn; lia | reflexivity].
  - destruct (send_key k) as [u|e] eqn:Hk.
    + specialize (IH (S k)). destruct (human_type send_key (S k) rest) as [evs [k'|e]].
      * destruct IH as [Hk' Hks]. split; [cbn; lia|]. cbn. rewrite <- Hks. reflexivity.
      * destruct IH as [i [Hi [He [Hpre Hks]]]]. exists (S i). repeat split.
        -- cbn. lia.
        -- replace (k + S i) with (S k + i) by lia. exact He.
        -- intros j Hj. destruct j as [|j]; [rewrite Nat.add_0_r; eauto|].
           replace (k + S j) with (S k + j) by lia. apply Hpre. lia.
        -- cbn. rewrite <- Hks. reflexivity.
    + exists 0. repeat split.
      * cbn. lia.
      * rewrite Nat.add_0_r. exact Hk.
      * intros j Hj. lia.
      * cbn. destruct rest; reflexivity.
Qed.

(** The first captcha loop of the workflow calls the guard at most
    [fuel] times (at least once), continues while it returns [True] and
    stops at the first [False]: every call but the last returned
    [True], and the last returned [False] unless the bound was reached. *)
Theorem captcha_loop_bound (pages : nat -> captcha_page) :
  forall fuel n,
  0 < fuel ->
  n < snd (captcha_loop pages fuel n) <= n + fuel /\
  count_checks (fst (captcha_loop pages fuel n)) = snd (captcha_loop pages fuel n) - n /\
  (forall j, n <= j < snd (captcha_loop pages fuel n) - 1 ->
             check_and_close_captcha (pages j) = true) /\
  (snd (captcha_loop pages fuel n) < n + fuel ->
   check_and_close_captcha (pages (snd (captcha_loop pages fuel n) - 1)) = false).
Proof.
  induction fuel as [|f IH]; intros n Hf; [lia|].
  cbn [captcha_loop]. destruct (check_and_close_captcha (pages n)) eqn:Hc.
  - destruct f as [|f'].
    + cbn [captcha_loop fst snd]. unfold count_checks. cbn [filter List.length].
      repeat split; try lia.
      all: try (intros j Hj; replace j with n by lia; exact Hc).
      all: intros Hlt; lia.
    + specialize (IH (S n) ltac:(lia)).
      destruct (captcha_loop pages (S f') (S n)) as [evs n'] eqn:Hl. cbn [fst snd] in *.
      destruct IH as [[H1 H2] [H3 [H4 H5]]].
      repeat split; try lia.
      * unfold count_checks in *. cbn [filter List.length]. rewrite H3. lia.
      * intros j Hj. destruct (Nat.eq_dec j n) as [->|Hne]; [exact Hc|]. apply H4. lia.
      * intros Hlt. apply H5. lia.
  - cbn [fst snd]. unfold count_checks. cbn [filter List.length].
    repeat split; try lia.
    all: intros _; replace (S n - 1) with n by lia; exact Hc.
Qed.

Lemma captcha_loop_bound_witness :
  0 < CAPTCHA_CHECK_ATTEMPTS /\ snd (captcha_loop captcha_always CAPTCHA_CHECK_ATTEMPTS 0) = 3 /\
  0 < snd (captcha_loop captcha_always CAPTCHA_CHECK_ATTEMPTS 0) <= 0 + CAPTCHA_CHECK_ATTEMPTS.
Proof.
  assert (H : 0 < CAPTCHA_CHECK_ATTEMPTS) by (unfold CAPTCHA_CHECK_ATTEMPTS; lia).
  split; [exact H | split; [vm_compute; reflexivity|]].
  exact (proj1 (captcha_loop_bound captcha_always CAPTCHA_CHECK_ATTEMPTS 0 H)).
Defined.

Lemma find_input_gen (page : string -> result elem) (sels : list string) :
  forall cur,
  (find_input page sels cur = None <->
   cur = None /\ Forall (fun sel => exists e, page sel = Raise e) sels) /\
  ((forall sel e, In sel sels -> page sel = Ok e -> el_displayed e <> Ok true) ->
   find_input page sels cur =
     match last_located page sels with Some e => Some e | None => cur end).
Proof.
  induction sels as [|sel rest IH]; intros cur; cbn [find_input last_located].
  - split; [split; [intros ->; split; [reflexivity | constructor] | intros [-> _]; reflexivity]|].
    intros _. reflexivity.
  - destruct (page sel) as [e|ex] eqn:Hp.
    + split.
      * split; [|intros [_ Hf]; inversion Hf as [|? ? [x Hx] _]; congruence].
        destruct (el_displayed e) as [[|]|ed]; [discriminate| |];
          intros H; apply (proj1 (IH (Some e))) in H; destruct H; discriminate.
      * intros Hnd.
        assert (Hd : el_displayed e <> Ok true) by (apply (Hnd sel); [left|]; auto).
        assert (Hnd' : forall s e', In s rest -> page s = Ok e' -> el_displayed e' <> Ok true)
          by (intros s e' Hs; apply Hnd; right; exact Hs).
        destruct (el_displayed e) as [[|]|ed]; [congruence| |];
          rewrite (proj2 (IH (Some e)) Hnd'); destruct (last_located page rest); reflexivity.
    + split.
      * rewrite (proj1 (IH cur)). split.
        -- intros [Hc Hf]. split; [exact Hc|]. constructor; [eauto | exact Hf].
        -- intros [Hc Hf]. inversion Hf. split; assumption.
      * intros Hnd. rewrite (proj2 (IH cur)) by (intros s e' Hs; apply Hnd; right; exact Hs).
        destruct (last_located page rest); reflexivity.
Qed.

(** The message-input lookup of the workflow returns [None] only when no
    selector locates any element; when no located element is displayed
    it does not give up but keeps the element located by the last
    selector that found one, so the workflow goes on to click and type
    into a hidden element (unlike the message-button lookup). *)
Theorem find_input_fallback (page : string -> result elem) :
  (find_input page input_selectors None = None <->
   Forall (fun sel => exists e, page sel = Raise e) input_selectors) /\
  ((forall sel e, In sel input_selectors -> page sel = Ok e -> el_displayed e <> Ok true) ->
   find_input page input_selectors None = last_located page input_selectors).
Proof.
  destruct (find_input_gen page input_selectors None) as [H1 H2]. split.
  - rewrite H1. tauto.
  - intros Hnd. rewrite (H2 Hnd). destruct (last_located page input_selectors); reflexivity.
Qed.

Lemma find_input_fallback_witness :
  (forall sel e, In sel input_selectors -> input_page_hidden sel = Ok e -> el_displayed e <> Ok true) /\
  find_input input_page_hidden input_selectors None = Some hidden_input /\
  find_input input_page_hidden input_selectors None = last_located input_page_hidden input_selectors.
Proof.
  assert (H : forall sel e, In sel input_selectors -> input_page_hidden sel = Ok e ->
                            el_displayed e <> Ok true).
  { intros sel e _. unfold input_page_hidden.
    destruct (String.eqb sel _); [intros Hx; injection Hx as <-; discriminate | discriminate]. }
  split; [exact H | split; [vm_compute; reflexivity|]].
  exact (proj2 (find_input_fallback input_page_hidden) H).
Defined.

Lemma captcha_loop_guard_only (pages : nat -> captcha_page) :
  forall fuel n, Forall guard_or_pause (fst (captcha_loop pages fuel n)).
Proof.
  induction fuel as [|f IH]; intros n; cbn [captcha_loop]; [constructor|].
  destruct (check_and_close_captcha (pages n)).
  - specialize (IH (S n)). destruct (captcha_loop pages f (S n)) as [evs n'].
    constructor; [left; reflexivity | constructor; [right; eauto | exact IH]].
  - constructor; [left; reflexivity | constructor].
Qed.

Lemma guard_or_pause_no_keys (evs : list wevent) : Forall guard_or_pause evs -> keys_sent evs = [].
Proof.
  induction 1 as [|ev evs [->|[n ->]] _ IH]; [reflexivity | exact IH | exact IH].
Qed.

(** When no message button is found, [send_streak_to_user] has only
    opened the profile page, paused and called the captcha guard: it never
    tried to click the message button, never clicked the message input and
    typed nothing into it.  It then saves [debug_no_button_<user>.png] and
    returns [False]; if that screenshot raises an [Exception], the handler
    also attempts [debug_error_<user>.png] and still returns [False]; an
    exception outside [Exception] propagates. *)
Theorem workflow_no_button (env : workflow_env) (u : string)
    (Hnav : we_navigate env = Ok tt)
    (Hnone : find_message_button (we_button_page env) = None) :
  exists evs,
    Forall (fun ev => ev = WGet (profile_url (py_lstrip_at u)) \/ guard_or_pause ev) evs /\
    keys_sent evs = [] /\
    send_streak_workflow env u =
      match we_screenshot env (screenshot_name "no_button" (py_lstrip_at u)) with
      | Ok _ => (evs ++ [WScreenshot (screenshot_name "no_button" (py_lstrip_at u))], Ok false)
      | Raise ExcException =>
          (evs ++ [WScreenshot (screenshot_name "no_button" (py_lstrip_at u));
                   WScreenshot (screenshot_name "error" (py_lstrip_at u))], Ok false)
      | Raise ExcBaseOnly =>
          (evs ++ [WScreenshot (screenshot_name "no_button" (py_lstrip_at u))], Raise ExcBaseOnly)
      end.
Proof.
  unfold send_streak_workflow, streak_workflow_body. rewrite Hnav.
  pose proof (captcha_loop_guard_only (we_captcha env) CAPTCHA_CHECK_ATTEMPTS 0) as Hq.
  destruct (captcha_loop (we_captcha env) CAPTCHA_CHECK_ATTEMPTS 0) as [ev_g1 g].
  cbn [fst] in Hq. rewrite Hnone.
  exists ([WGet (profile_url (py_lstrip_at u))] ++ [WSleep 5] ++ ev_g1).
  split; [|split].
  - constructor; [left; reflexivity|].
    constructor; [right; right; eauto|].
    eapply Forall_impl; [|exact Hq]. intros ev Hev; right; exact Hev.
  - rewrite !keys_sent_app, (guard_or_pause_no_keys _ Hq). reflexivity.
  - unfold debug_shot.
    destruct (we_screenshot env (screenshot_name "no_button" (py_lstrip_at u))) as [?|[|]];
      [reflexivity | | reflexivity].
    rewrite <- app_assoc. reflexivity.
Qed.

Lemma workflow_no_button_witness :
  we_navigate wenv_no_button = Ok tt /\
  find_message_button (we_button_page wenv_no_button) = None /\
  exists evs,
    Forall (fun ev => ev = WGet (profile_url (py_lstrip_at "@bob")) \/ guard_or_pause ev) evs /\
    keys_sent evs = [] /\
    send_streak_workflow wenv_no_button "@bob" =
      (evs ++ [WScreenshot (screenshot_name "no_button" (py_lstrip_at "@bob"));
               WScreenshot (screenshot_name "error" (py_lstrip_at "@bob"))], Ok false).
Proof.
  assert (Hn : find_message_button (we_button_page wenv_no_button) = None)
    by (vm_compute; reflexivity).
  split; [reflexivity | split; [exact Hn|]].
  exact (workflow_no_button wenv_no_button "@bob" eq_refl Hn).
Defined.

(** A debug screenshot branch never ends in [True]. *)
Ltac shot_false H :=
  unfold debug_shot in H;
  match type of H with context [we_screenshot ?E ?N] => destruct (we_screenshot E N) as [?|[|]] end;
  cbn in H; discriminate.

(** [send_streak_to_user] returns [True] only after it found the message
    button and the message input, and then the keys it sent are exactly
    the characters of one of the [STREAK_MESSAGES] followed by a single
    RETURN. *)
Theorem workflow_success_keys (env : workflow_env) (u : string) (evs : list wevent)
    (H : send_streak_workflow env u = (evs, Ok true)) :
  (exists b, find_message_button (we_button_page env) = Some b) /\
  (exists i, find_input (we_input_page env) input_selectors None = Some i) /\
  exists m, In m STREAK_MESSAGES /\ keys_sent evs = keys_of_string m ++ [KReturn].
Proof.
  unfold send_streak_workflow, streak_workflow_body in H.
  destruct (we_navigate env) as [?|e]; [|destruct e; cbn in H; discriminate].
  pose proof (captcha_loop_guard_only (we_captcha env) CAPTCHA_CHECK_ATTEMPTS 0) as Hq.
  destruct (captcha_loop (we_captcha env) CAPTCHA_CHECK_ATTEMPTS 0) as [ev_g1 g].
  cbn [fst] in Hq.
  destruct (find_message_button (we_button_page env)) as [b|]; [|shot_false H].
  destruct (click_message_button (Some b) (we_click env)) as [tried clicked].
  destruct clicked as [[|]|e]; [| shot_false H | destruct e; cbn in H; discriminate].
  destruct (find_input (we_input_page env) input_selectors None) as [i|];
    [|shot_false H].
  destruct (el_click i) as [?|e]; [|destruct e; cbn in H; discriminate].
  set (m := nth (we_choice env mod List.length STREAK_MESSAGES) STREAK_MESSAGES EmptyString) in H.
  pose proof (human_type_keys (we_send_key env) m 0) as Ht.
  destruct (human_type (we_send_key env) 0 m) as [ev_t [k|e]];
    [|destruct e; cbn in H; discriminate].
  destruct (we_send_key env k) as [?|e]; [|destruct e; cbn in H; discriminate].
  injection H as <-.
  split; [eauto|]. split; [eauto|].
  exists m. split.
  - unfold m. apply nth_In. apply Nat.mod_upper_bound. cbn. discriminate.
  - destruct Ht as [_ Ht]. pose proof (guard_or_pause_no_keys _ Hq) as Hk. unfold keys_sent in *.
    cbn [flat_map app]. rewrite !flat_map_app, Hk. cbn [flat_map app]. rewrite Ht. rewrite ?app_nil_r. reflexivity.
Qed.

Lemma workflow_success_keys_witness :
  send_streak_workflow wenv_ok "alice" =
    (fst (send_streak_workflow wenv_ok "alice"), Ok true) /\
  exists m, In m STREAK_MESSAGES /\
    keys_sent (fst (send_streak_workflow wenv_ok "alice")) = keys_of_string m ++ [KReturn].
Proof.
  assert (H : send_streak_workflow wenv_ok "alice" =
              (fst (send_streak_workflow wenv_ok "alice"), Ok true)) by (vm_compute; reflexivity).
  split; [exact H|].
  exact (proj2 (proj2 (workflow_success_keys wenv_ok "alice" _ H))).
Defined.

Lemma workflow_body_first_event (env : workflow_env) (u : string) :
  exists rest, fst (streak_workflow_body env u) = WGet (profile_url (py_lstrip_at u)) :: rest.
Proof.
  unfold streak_workflow_body.
  destruct (we_navigate env); [|eexists; reflexivity].
  destruct (captcha_loop (we_captcha env) CAPTCHA_CHECK_ATTEMPTS 0) as [ev_g1 g].
  destruct (find_message_button (we_button_page env)) as [b|]; [|eexists; reflexivity].
  destruct (click_message_button (Some b) (we_click env)) as [tried [[|]|e]];
    [|eexists; reflexivity|eexists; reflexivity].
  destruct (find_input (we_input_page env) input_selectors None) as [i|];
    [|eexists; reflexivity].
  destruct (el_click i); [|eexists; reflexivity].
  destruct (human_type _ 0 _) as [ev_t [k|e]]; [|eexists; reflexivity].
  destruct (we_send_key env k); eexists; reflexivity.
Qed.

(** [send_streak_to_user] strips the leading [@]s of the handle: its first
    action is opening [https://www.tiktok.com/@<handle>], and a handle
    given with an extra leading [@] gives the same trace and result. *)
Theorem workflow_handle_normalized (env : workflow_env) (u : string) :
  send_streak_workflow env (String "@" u) = send_streak_workflow env u /\
  exists rest, fst (send_streak_workflow env u) = WGet (profile_url (py_lstrip_at u)) :: rest.
Proof.
  split.
  - assert (Hs : py_lstrip_at (String "@" u) = py_lstrip_at u) by reflexivity.
    unfold send_streak_workflow, streak_workflow_body. rewrite Hs. reflexivity.
  - destruct (workflow_body_first_event env u) as [rest Hr].
    unfold send_streak_workflow.
    destruct (streak_workflow_body env u) as [evs r]. cbn [fst] in Hr. subst evs.
    destruct r as [?|[|]]; cbn [fst app]; eexists; reflexivity.
Qed.

Lemma make_cookie_dict_exn (c : cookie) (e : exn) :
  make_cookie_dict c = Raise e -> e = ExcException.
Proof.
  unfold make_cookie_dict. destruct (ck_expirationDate c) as [[|]|]; congruence.
Qed.

Lemma add_cookies_isolation (add_cookie : cookie_dict -> result unit)
    (Hadd : forall d, add_cookie d <> Raise ExcBaseOnly) (cookies : list cookie) :
  snd (add_cookies add_cookie cookies) = Ok tt /\
  cookies_added (fst (add_cookies add_cookie cookies)) = cookie_dicts cookies /\
  cookies_warned (fst (add_cookies add_cookie cookies)) =
    map ck_name (filter (cookie_fails add_cookie) cookies).
Proof.
  induction cookies as [|c rest IH]; [repeat split|].
  destruct (add_cookies add_cookie rest) as [evs' r'] eqn:Hr.
  cbn [fst snd] in IH. destruct IH as [-> [Ha Hw]].
  unfold cookie_dicts, cookie_fails in *. cbn [add_cookies flat_map filter].
  destruct (make_cookie_dict c) as [d|e] eqn:Hm.
  - destruct (add_cookie d) as [u|e] eqn:Hd.
    + rewrite Hr. cbn [fst snd app]. unfold cookies_added, cookies_warned in *.
      cbn [flat_map app]. rewrite Ha, Hw. repeat split.
    + destruct e; [|exfalso; exact (Hadd d Hd)].
      rewrite Hr. cbn [fst snd app]. unfold cookies_added, cookies_warned in *.
      cbn [flat_map app map]. rewrite Ha, Hw. repeat split.
  - rewrite (make_cookie_dict_exn c e Hm). rewrite Hr. cbn [fst snd app].
    unfold cookies_added, cookies_warned in *. cbn [flat_map app map]. rewrite Ha, Hw.
    repeat split.
Qed.

(** In [load_cookies_to_driver] a cookie that cannot be converted or that
    the browser refuses does not stop the loading: as long as no
    [KeyboardInterrupt]-like exception occurs, the function returns, every
    convertible cookie is offered to [add_cookie] in file order, and one
    warning is logged per failing cookie, in order, with its name. *)
Theorem cookies_failure_isolation (get : result unit)
    (add_cookie : cookie_dict -> result unit) (cookies : list cookie)
    (Hget : get = Ok tt) (Hadd : forall d, add_cookie d <> Raise ExcBaseOnly) :
  snd (load_cookies_to_driver get add_cookie cookies) = Ok tt /\
  cookies_added (fst (load_cookies_to_driver get add_cookie cookies)) = cookie_dicts cookies /\
  cookies_warned (fst (load_cookies_to_driver get add_cookie cookies)) =
    map ck_name (filter (cookie_fails add_cookie) cookies).
Proof.
  subst get. destruct (add_cookies_isolation add_cookie Hadd cookies) as [Hs [Ha Hw]].
  unfold load_cookies_to_driver.
  destruct (add_cookies add_cookie cookies) as [evs r]. cbn [fst snd] in *. subst r.
  unfold cookies_added, cookies_warned in *. cbn [fst snd flat_map app].
  rewrite !flat_map_app, Ha, Hw. cbn [flat_map]. rewrite !app_nil_r. repeat split.
Qed.

Lemma cookies_failure_isolation_witness :
  (forall d, add_cookie_refuses_bad d <> Raise ExcBaseOnly) /\
  map ck_name (filter (cookie_fails add_cookie_refuses_bad) cookies_mixed) =
    [Some "tt_csrf"%string; Some "bad"%string] /\
  cookies_warned (fst (load_cookies_to_driver (Ok tt) add_cookie_refuses_bad cookies_mixed)) =
    map ck_name (filter (cookie_fails add_cookie_refuses_bad) cookies_mixed).
Proof.
  assert (Hadd : forall d, add_cookie_refuses_bad d <> Raise ExcBaseOnly).
  { intros d. unfold add_cookie_refuses_bad.
    destruct (cd_name d) as [n|]; [destruct (String.eqb n "bad")|]; discriminate. }
  split; [exact Hadd | split; [vm_compute; reflexivity|]].
  exact (proj2 (proj2 (cookies_failure_isolation (Ok tt) add_cookie_refuses_bad
                         cookies_mixed eq_refl Hadd))).
Defined.




(** A failing job does not stop the scheduler: when every exception of
    the passes is an [Exception] raised by [schedule.run_pending()], the
    loop is still running after all of them, it slept one minute per pass
    and logged one scheduler error per failing pass. *)
Theorem scheduler_survives_job_errors (ticks : list tick) (last_check : Z)
    (H : Forall benign_tick ticks) :
  snd (sched_loop ticks last_check) = None /\
  count_sevent SSleep60 (fst (sched_loop ticks last_check)) = List.length ticks /\
  count_sevent SError (fst (sched_loop ticks last_check)) =
    List.length (filter job_failed ticks).
Proof.
  revert last_check. induction H as [|tk rest [Hp [Hs [He Hr]]] _ IH]; intros last_check;
    [repeat split|].
  cbn [sched_loop]. unfold sched_try.
  destruct Hp as [Hp|Hp]; rewrite Hp.
  - rewrite Hs.
    destruct (Z.leb HEARTBEAT_US (tk_now tk - last_check));
    (match goal with |- context [sched_loop rest ?l] =>
       specialize (IH l); destruct (sched_loop rest l) as [evs' o] end;
     destruct IH as [Ho [H1 H2]]; cbn [fst snd] in *;
     unfold count_sevent, job_failed in *; cbn [filter]; rewrite Hp;
     rewrite ?filter_app, ?length_app; cbn in *; (split; [exact Ho | split; lia])).
  - rewrite He, Hr. specialize (IH last_check). destruct (sched_loop rest last_check) as [evs' o].
    destruct IH as [Ho [H1 H2]]. cbn [fst snd] in *.
    unfold count_sevent, job_failed in *; cbn [filter]; rewrite Hp.
    cbn in *. split; [exact Ho | split; lia].
Qed.

Lemma scheduler_survives_job_errors_witness :
  Forall benign_tick ticks_hour /\ List.length (filter job_failed ticks_hour) = 2%nat /\
  snd (sched_loop ticks_hour 0) = None.
Proof.
  assert (H : Forall benign_tick ticks_hour).
  { unfold ticks_hour. apply Forall_forall. intros tk Hin. apply in_map_iff in Hin.
    destruct Hin as [m [<- _]].
    destruct (orb (Nat.eqb m 10) (Nat.eqb m 20));
      (split; [cbn; auto | repeat split]). }
  split; [exact H | split; [vm_compute; reflexivity|]].
  exact (proj1 (scheduler_survives_job_errors ticks_hour 0 H)).
Defined.

Lemma sched_try_outcome (tk : tick) (last_check : Z) :
  snd (fst (sched_try tk last_check)) = try_outcome tk.
Proof.
  unfold sched_try, try_outcome. destruct (tk_pending tk); [|reflexivity].
  destruct (Z.leb HEARTBEAT_US (tk_now tk - last_check)), (tk_sleep tk) as [[]|]; reflexivity.
Qed.

(** How the scheduler loop ends.  It logs "Scheduler stopped by user"
    exactly when it breaks, and that is its last event; any other exit is
    an exception escaping without that log.  A [KeyboardInterrupt] or an
    [Exception] escapes only from an [except] handler, whose statements
    run outside the [try]: the Ctrl+C handler's prints and log, or the
    error handler's print and log or its "Retrying" print and wait. *)
Theorem scheduler_exit (ticks : list tick) (last_check : Z) :
  match sched_loop ticks last_check with
  | (evs, Some (inl _)) => exists pre, evs = pre ++ [SStopped] /\ ~ In SStopped pre
  | (evs, Some (inr e)) =>
      ~ In SStopped evs /\ (e = SOtherBase \/ exists tk, In tk ticks /\ handler_raises tk e)
  | (evs, None) => ~ In SStopped evs
  end.
Proof.
  revert last_check. induction ticks as [|tk rest IH]; intros last_check; [cbn; auto|].
  cbn [sched_loop].
  pose proof (sched_try_outcome tk last_check) as Hout.
  assert (Hno : ~ In SStopped (fst (fst (sched_try tk last_check)))).
  { unfold sched_try. destruct (tk_pending tk); [|cbn; auto].
    destruct (Z.leb HEARTBEAT_US (tk_now tk - last_check)), (tk_sleep tk);
      cbn; intuition discriminate. }
  destruct (sched_try tk last_check) as [[evs r] last']. cbn [fst snd] in Hno, Hout.
  assert (Happ : forall l, ~ In SStopped l -> ~ In SStopped (evs ++ l)).
  { intros l Hl Hin. apply in_app_or in Hin. tauto. }
  assert (Hnil : ~ In SStopped (evs ++ [])) by (rewrite app_nil_r; exact Hno).
  assert (Hhere : forall e, handler_raises tk e ->
                  exists tk', In tk' (tk :: rest) /\ handler_raises tk' e)
    by (intros e He; exists tk; split; [left; reflexivity | exact He]).
  assert (Hlater : forall e, (exists tk', In tk' rest /\ handler_raises tk' e) ->
                   exists tk', In tk' (tk :: rest) /\ handler_raises tk' e)
    by (intros e [tk' [Hin He]]; exists tk'; split; [right; exact Hin | exact He]).
  destruct r as [u|[| |]].
  - specialize (IH last'). destruct (sched_loop rest last') as [evs' [[u'|e']|]].
    + destruct IH as [pre [-> Hpre]]. exists (evs ++ pre). split; [apply app_assoc|auto].
    + destruct IH as [Hs [Ho|Hh]]; split; auto.
    + auto.
  - destruct (tk_stop_handler tk) as [u|e] eqn:Hst.
    + exists evs. auto.
    + split; [exact Hno|]. right. apply Hhere. unfold handler_raises. rewrite <- Hout. exact Hst.
  - split; [exact Hno | left; reflexivity].
  - destruct (tk_error_log tk) as [[]|e] eqn:Hel.
    + destruct (tk_retry_sleep tk) as [u|e] eqn:Hrs.
      * specialize (IH last'). destruct (sched_loop rest last') as [evs' [[u'|e']|]].
        -- destruct IH as [pre [-> Hpre]].
           exists (evs ++ [SError; SSleep60] ++ pre). rewrite !app_assoc. split; [reflexivity|].
           rewrite <- !app_assoc. apply Happ. cbn. intuition discriminate.
        -- destruct IH as [Hs Hh]. split.
           ++ apply Happ. cbn. intros [Hx|[Hx|Hx]]; [discriminate|discriminate|].
              apply Hs. exact Hx.
           ++ destruct Hh as [Ho|Hh]; [left; exact Ho | right; apply Hlater; exact Hh].
        -- apply Happ. cbn. intros [Hx|[Hx|Hx]]; [discriminate|discriminate|tauto].
      * split; [apply Happ; cbn; intuition discriminate|].
        right. apply Hhere. unfold handler_raises. rewrite <- Hout. right. split; assumption.
    + split; [exact Hno|]. right. apply Hhere. unfold handler_raises. rewrite <- Hout.
      left. exact Hel.
Qed.
